(** * x402 performance-benchmarking client: statistics, harness, network
      analysis and recommendations

    A shallow embedding of
    [examples/typescript/clients/performance-benchmarking/index.ts].

    Modelling conventions.
    - A JavaScript [number] is a value of [JS.number]: [NaN], the two
      infinities, or a finite value carried as an exact rational.  The
      IEEE-754 rounding of single operations on finite values is not
      modelled, and zero is the positive zero (no divisor of this program
      is a negative zero: they are array lengths, literals, counters and
      differences of integers).
    - The one expression whose value a rounding could change by a whole
      unit, [Math.floor(sorted.length * q)], is also evaluated in binary64
      ([Binary64.floor_mul]) and shown to give the same index for every
      array length.
    - Counts ([iterations], [concurrency], [success], [errors]) are
      natural numbers; [totalTimeMs], the difference of two readings of
      [Date.now()], is an integer.
    - An exception is the [Thrown] constructor of [outcome].
    - A promise that has settled is the [outcome] it settled with.
    - Clocks, the benchmarked operation and the network are oracles that
      the functions take as arguments. *)

From Stdlib Require Import ZArith QArith Qround List String Bool Lia Lqa.
From Stdlib Require Import SpecFloat DecimalString.
From Stdlib Require Import Sorting.Permutation Sorting.Sorted.
Import ListNotations.

Set Implicit Arguments.

(** ** JavaScript numbers *)

Module JS.

Inductive number : Type :=
| NaN
| PosInf
| NegInf
| Fin (q : Q).

Definition of_Z (z : Z) : number := Fin (inject_Z z).
Definition of_nat (n : nat) : number := of_Z (Z.of_nat n).

(** Two numbers denote the same value (rationals are compared by [Qeq]). *)
Definition same_value (a b : number) : Prop :=
  match a, b with
  | NaN, NaN | PosInf, PosInf | NegInf, NegInf => True
  | Fin x, Fin y => x == y
  | _, _ => False
  end.

Definition is_finite (a : number) : bool :=
  match a with Fin _ => true | _ => false end.

Definition Qlt_bool (x y : Q) : bool := negb (Qle_bool y x).

Definition inf_of (c : comparison) : number :=
  match c with Gt => PosInf | Lt => NegInf | Eq => NaN end.

Definition neg (a : number) : number :=
  match a with
  | NaN => NaN
  | PosInf => NegInf
  | NegInf => PosInf
  | Fin q => Fin (- q)
  end.

(** [a + b] *)
Definition add (a b : number) : number :=
  match a, b with
  | NaN, _ | _, NaN => NaN
  | PosInf, NegInf | NegInf, PosInf => NaN
  | PosInf, _ | _, PosInf => PosInf
  | NegInf, _ | _, NegInf => NegInf
  | Fin x, Fin y => Fin (x + y)
  end.

(** [a - b] *)
Definition sub (a b : number) : number := add a (neg b).

(** [a * b] *)
Definition mul (a b : number) : number :=
  match a, b with
  | NaN, _ | _, NaN => NaN
  | Fin x, Fin y => Fin (x * y)
  | PosInf, Fin y | Fin y, PosInf => inf_of (y ?= 0)
  | NegInf, Fin y | Fin y, NegInf => inf_of (0 ?= y)
  | PosInf, PosInf | NegInf, NegInf => PosInf
  | PosInf, NegInf | NegInf, PosInf => NegInf
  end.

(** [a / b]; a zero divisor is the positive zero. *)
Definition div (a b : number) : number :=
  match a, b with
  | NaN, _ | _, NaN => NaN
  | (PosInf | NegInf), (PosInf | NegInf) => NaN
  | PosInf, Fin y => if Qlt_bool y 0 then NegInf else PosInf
  | NegInf, Fin y => if Qlt_bool y 0 then PosInf else NegInf
  | Fin _, (PosInf | NegInf) => Fin 0
  | Fin x, Fin y => if Qeq_bool y 0 then inf_of (x ?= 0) else Fin (x / y)
  end.

(** [a > b]: false as soon as an operand is [NaN]. *)
Definition gt (a b : number) : bool :=
  match a, b with
  | NaN, _ | _, NaN => false
  | _, PosInf => false
  | PosInf, _ => true
  | NegInf, _ => false
  | Fin _, NegInf => true
  | Fin x, Fin y => Qlt_bool y x
  end.

(** [a < b] *)
Definition lt (a b : number) : bool := gt b a.

(** [a <= b] *)
Definition le (a b : number) : bool :=
  match a, b with
  | NaN, _ | _, NaN => false
  | _, PosInf => true
  | PosInf, _ => false
  | NegInf, _ => true
  | Fin _, NegInf => false
  | Fin x, Fin y => Qle_bool x y
  end.

(** [Math.floor] *)
Definition Math_floor (a : number) : number :=
  match a with
  | Fin x => of_Z (Qfloor x)
  | _ => a
  end.

(** [Math.round]: the nearest integer, a tie going up. *)
Definition Math_round (a : number) : number :=
  match a with
  | Fin x => of_Z (Qfloor (x + (1 # 2)))
  | _ => a
  end.

(** [Math.max(...args)]: [-Infinity] without arguments. *)
Definition max2 (a b : number) : number :=
  match a, b with
  | NaN, _ | _, NaN => NaN
  | _, _ => if gt b a then b else a
  end.

Definition Math_max (args : list number) : number :=
  fold_left max2 args NegInf.

(** [arr.reduce((sum, t) => sum + t, 0)] *)
Definition sum (arr : list number) : number :=
  fold_left add arr (Fin 0).

(** [arr[i]] for a number [i]: [None] is [undefined]. *)
Definition get {A : Type} (arr : list A) (i : number) : option A :=
  match i with
  | Fin q =>
      if Qeq_bool q (inject_Z (Qfloor q)) && (0 <=? Qfloor q)%Z
      then nth_error arr (Z.to_nat (Qfloor q))
      else None
  | _ => None
  end.

(** An element read from an array of numbers, used in arithmetic:
    [undefined] converts to [NaN]. *)
Definition to_number (v : option number) : number :=
  match v with Some x => x | None => NaN end.

(** [arr.slice(from, to)] for indices that are natural numbers. *)
Definition slice {A : Type} (arr : list A) (from to : nat) : list A :=
  firstn (to - from) (skipn from arr).

(** [Array.prototype.sort(compareFn)]: a stable sort; [x] goes before
    [y] unless [compareFn(x, y) > 0].  Every stable algorithm gives this
    result when the comparison is consistent. *)
Section Sort.

Context {A : Type} (compareFn : A -> A -> number).

Fixpoint insert (x : A) (l : list A) : list A :=
  match l with
  | [] => [x]
  | y :: l' => if gt (compareFn x y) (Fin 0) then y :: insert x l'
               else x :: l
  end.

Fixpoint sort (l : list A) : list A :=
  match l with
  | [] => []
  | x :: l' => insert x (sort l')
  end.

End Sort.

End JS.

(** ** Binary64 arithmetic for the percentile index *)

Module Binary64.

Local Open Scope Z_scope.

Definition prec : Z := 53.
Definition emax : Z := 1024.

(** An integer as a binary64 number. *)
Definition of_Z (z : Z) : spec_float := binary_normalize prec emax z 0 false.

(** The decimal literal [a / b] (0.5, 0.95, 0.99): the binary64 nearest to
    the quotient, which is what the correctly rounded division gives. *)
Definition literal (a b : Z) : spec_float :=
  SFdiv prec emax (of_Z a) (of_Z b).

(** [Math.floor] of a binary64 number, as an integer; [None] for [NaN] and
    the infinities. *)
Definition floor (x : spec_float) : option Z :=
  match x with
  | S754_zero _ => Some 0
  | S754_finite s m e =>
      let v := cond_Zopp s (Zpos m) in
      Some (match e with Zneg p => v / 2 ^ Zpos p | _ => v * 2 ^ e end)
  | _ => None
  end.

(** [Math.floor(n * lit)] *)
Definition floor_mul (n : Z) (lit : spec_float) : option Z :=
  floor (SFmul prec emax (of_Z n) lit).

End Binary64.

(** ** Exceptions *)

Inductive outcome (A : Type) : Type :=
| Returned (a : A)
| Thrown (message : string).
Arguments Returned {A} a.
Arguments Thrown {A} message.

(** ** Data *)

Record BenchmarkResult : Type := {
  operation : string;
  iterations : nat;
  totalTimeMs : Z;
  avgTimeMs : JS.number;
  minTimeMs : JS.number;
  maxTimeMs : JS.number;
  p50Ms : JS.number;
  p95Ms : JS.number;
  p99Ms : JS.number;
  opsPerSecond : JS.number;
  success : nat;
  errors : nat;
  errorRate : JS.number
}.

Record NetworkMetrics : Type := {
  facilitatorLatency : JS.number;
  rpcLatency : JS.number;
  totalRoundTrips : nat;
  dataTransferred : nat
}.

(** ** PerformanceBenchmarker.calculateStats *)

(** The samples of [this.measurements] are differences of two readings of
    [performance.now()], hence finite. *)
Definition samples := list Q.

(** [(a, b) => a - b] *)
Definition ascending (a b : JS.number) : JS.number := JS.sub a b.

(** [Math.round(x * 100) / 100] *)
Definition round2 (x : JS.number) : JS.number :=
  JS.div (JS.Math_round (JS.mul x (JS.Fin 100))) (JS.Fin 100).

(** The decimal literals of the three percentile lines, as exact
    rationals; [binary64_index] below shows that the binary64 literals
    give the same index. *)
Definition q50 : Q := 5 # 10.
Definition q95 : Q := 95 # 100.
Definition q99 : Q := 99 # 100.

(** [Math.round(sorted[Math.floor(sorted.length * q)] * 100) / 100] *)
Definition percentile (sorted : list JS.number) (q : Q) : JS.number :=
  round2 (JS.to_number
    (JS.get sorted
       (JS.Math_floor (JS.mul (JS.of_nat (List.length sorted)) (JS.Fin q))))).

Definition calculateStats (measurements : samples)
    (operation : string) (iterations : nat) (totalTimeMs : Z)
    (success errors : nat) : outcome BenchmarkResult :=
  if (List.length measurements =? 0)%nat then Thrown "No measurements recorded"
  else
    let numbers := map JS.Fin measurements in
    let sorted := JS.sort ascending numbers in
    let avgTimeMs := JS.div (JS.sum numbers) (JS.of_nat (List.length numbers)) in
    Returned {|
      operation := operation;
      iterations := iterations;
      totalTimeMs := totalTimeMs;
      avgTimeMs := round2 avgTimeMs;
      minTimeMs := round2 (JS.to_number (JS.get sorted (JS.Fin 0)));
      maxTimeMs :=
        round2 (JS.to_number
          (JS.get sorted (JS.sub (JS.of_nat (List.length sorted)) (JS.Fin 1))));
      p50Ms := percentile sorted q50;
      p95Ms := percentile sorted q95;
      p99Ms := percentile sorted q99;
      opsPerSecond :=
        JS.Math_round
          (JS.mul (JS.div (JS.of_nat iterations) (JS.of_Z totalTimeMs))
                  (JS.Fin 1000));
      success := success;
      errors := errors;
      errorRate :=
        JS.div
          (JS.Math_round
             (JS.mul (JS.mul (JS.div (JS.of_nat errors) (JS.of_nat iterations))
                             (JS.Fin 100))
                     (JS.Fin 100)))
          (JS.Fin 100)
    |}.

(** ** PerformanceBenchmarker.benchmark *)

(** What the harness observes of one awaited call of [testFn]: whether
    the promise rejected, the difference of the two readings of
    [performance.now()] around the call, and the groups of requests the
    call dispatched (each group awaited as a whole). *)
Record invocation : Type := {
  rejected : bool;
  elapsed : Q;
  requests : list (list string)
}.

(** The private state of a [PerformanceBenchmarker]. *)
Record benchmarker : Type := { measurements : samples }.

(** The variables of the measured loop. *)
Record loop_state : Type := {
  recorded : samples;
  successCount : nat;
  errorCount : nat
}.

(** The body of the loop: [testFn] is given the number of the call, the
    warm-up call being call 0. *)
Definition trial (testFn : nat -> invocation) (i : nat) (st : loop_state)
  : loop_state :=
  let call := testFn (S i) in
  if rejected call then
    {| recorded := recorded st ++ [elapsed call];
       successCount := successCount st;
       errorCount := S (errorCount st) |}
  else
    {| recorded := recorded st ++ [elapsed call];
       successCount := S (successCount st);
       errorCount := errorCount st |}.

(** [for (let i = 0; i < iterations; i++)], by the number of rounds
    that remain. *)
Fixpoint trials (testFn : nat -> invocation) (remaining i : nat)
    (st : loop_state) : loop_state :=
  match remaining with
  | O => st
  | S remaining' => trials testFn remaining' (S i) (trial testFn i st)
  end.

(** [totalTime] is the difference of the two readings of [Date.now()].
    The warm-up call (call 0) is awaited and its rejection caught;
    [this.measurements = []] starts the measured phase, so the samples
    held before the call do not matter; the spinner is left out. *)
Definition benchmark (self : benchmarker) (operation : string)
    (testFn : nat -> invocation) (iterations : nat) (totalTime : Z)
  : benchmarker * outcome BenchmarkResult :=
  let st := trials testFn iterations 0
              {| recorded := []; successCount := 0; errorCount := 0 |} in
  let self' := {| measurements := recorded st |} in
  (self', calculateStats (measurements self') operation iterations totalTime
            (successCount st) (errorCount st)).

(** ** PerformanceBenchmarker.benchmarkBatchOperations *)

(** How [this.client.get(endpoint)] settles. *)
Inductive response : Type :=
| Resolved
| PaymentRequired
| Failed.

(** [this.client.get(endpoint).catch(e => { if (e.response?.status !== 402) throw e; })] *)
Definition guarded_get (get : string -> response) (endpoint : string)
  : outcome unit :=
  match get endpoint with
  | Resolved => Returned tt
  | PaymentRequired => Returned tt
  | Failed => Thrown "request failed"
  end.

(** [Promise.allSettled] fulfils with the outcome of every promise. *)
Definition Promise_allSettled {A : Type} (promises : list (outcome A))
  : outcome (list (outcome A)) :=
  Returned promises.

(** The callable handed to [benchmark]:
    [for (const batch of batches) await Promise.allSettled(batch.map(...))].
    It returns how the call ended and the groups it dispatched. *)
Fixpoint run_batches (get : string -> response) (batches : list (list string))
  : outcome unit * list (list string) :=
  match batches with
  | [] => (Returned tt, [])
  | batch :: rest =>
      match Promise_allSettled (map (guarded_get get) batch) with
      | Returned _ =>
          let (r, log) := run_batches get rest in (r, batch :: log)
      | Thrown m => (Thrown m, [batch])
      end
  end.

Definition is_thrown {A : Type} (o : outcome A) : bool :=
  match o with Thrown _ => true | Returned _ => false end.

(** [client k] is how the endpoints answer during call [k], [clock k] the
    time call [k] is measured to take. *)
Definition batch_testFn (client : nat -> string -> response) (clock : nat -> Q)
    (batches : list (list string)) (k : nat) : invocation :=
  let (r, log) := run_batches (client k) batches in
  {| rejected := is_thrown r; elapsed := clock k; requests := log |}.

(** [for (let i = 0; i < endpoints.length; i += concurrency)
       batches.push(endpoints.slice(i, i + concurrency))].
    [None]: the loop is still running when the fuel is spent. *)
Fixpoint make_batches (fuel : nat) (endpoints : list string)
    (concurrency i : nat) (batches : list (list string))
  : option (list (list string)) :=
  if (i <? List.length endpoints)%nat then
    match fuel with
    | O => None
    | S fuel' =>
        make_batches fuel' endpoints concurrency (i + concurrency)
          (batches ++ [JS.slice endpoints i (i + concurrency)])
    end
  else Some batches.

(** [`Batch Operations (concurrency: ${concurrency})`] *)
Definition batch_label (concurrency : nat) : string :=
  ("Batch Operations (concurrency: "
   ++ NilEmpty.string_of_uint (Nat.to_uint concurrency) ++ ")")%string.

Definition benchmarkBatchOperations (fuel : nat) (self : benchmarker)
    (client : nat -> string -> response) (clock : nat -> Q)
    (endpoints : list string) (concurrency : nat) (totalTime : Z)
  : option (benchmarker * outcome BenchmarkResult) :=
  match make_batches fuel endpoints concurrency 0 [] with
  | None => None
  | Some batches =>
      Some (benchmark self (batch_label concurrency)
              (batch_testFn client clock batches)
              (Nat.min 10 (List.length batches)) totalTime)
  end.

(** ** NetworkAnalyzer *)

(** The network as the probes see it: [None] when [fetch] or
    [response.json()] rejects, otherwise the difference of the two
    readings of [performance.now()]. *)
Record network : Type := {
  fetch_get : string -> option Q;
  fetch_post : string -> option Q
}.

(** The value [-1] returned in the [catch] branch of both probes. *)
Definition sentinel : JS.number := JS.Fin (-1).

Definition measureFacilitatorLatency (net : network) (facilitatorUrl : string)
  : outcome JS.number :=
  match fetch_get net (facilitatorUrl ++ "/supported") with
  | Some t => Returned (JS.Fin t)
  | None => Returned sentinel
  end.

Definition measureRpcLatency (net : network) (rpcUrl : string)
  : outcome JS.number :=
  match fetch_post net rpcUrl with
  | Some t => Returned (JS.Fin t)
  | None => Returned sentinel
  end.

Definition bind {A B : Type} (o : outcome A) (k : A -> outcome B)
  : outcome B :=
  match o with
  | Returned a => k a
  | Thrown m => Thrown m
  end.

Notation "'await' x <- o ;; k" := (bind o (fun x => k))
  (at level 61, x name, o at next level, right associativity).

(** [Promise.all] rejects with the first rejection. *)
Fixpoint Promise_all {A : Type} (promises : list (outcome A))
  : outcome (list A) :=
  match promises with
  | [] => Returned []
  | p :: rest =>
      await a <- p ;;
      await l <- Promise_all rest ;;
      Returned (a :: l)
  end.

Definition facilitators : list string :=
  ["https://facilitator.x402.org";
   "https://facilitator.thirdweb.com";
   "https://facilitator.xpay.sh"]%string.

Definition rpcEndpoints : list string :=
  ["https://mainnet.base.org";
   "https://base-mainnet.public.blastapi.io";
   "https://base.gateway.tenderly.co"]%string.

(** [valid.length > 0 ? valid.reduce((sum, l) => sum + l, 0) / valid.length : -1] *)
Definition average_or_sentinel (valid : list JS.number) : JS.number :=
  if (0 <? List.length valid)%nat
  then JS.div (JS.sum valid) (JS.of_nat (List.length valid))
  else sentinel.

Definition analyzeNetwork (net : network) : outcome NetworkMetrics :=
  await facilitatorLatencies <-
    Promise_all (map (measureFacilitatorLatency net) facilitators) ;;
  await rpcLatencies <-
    Promise_all (map (measureRpcLatency net) rpcEndpoints) ;;
  let validFacilitatorLatencies :=
    filter (fun l => JS.gt l (JS.Fin 0)) facilitatorLatencies in
  let validRpcLatencies :=
    filter (fun l => JS.gt l (JS.Fin 0)) rpcLatencies in
  Returned {|
    facilitatorLatency := average_or_sentinel validFacilitatorLatencies;
    rpcLatency := average_or_sentinel validRpcLatencies;
    totalRoundTrips := (List.length facilitators + List.length rpcEndpoints)%nat;
    dataTransferred := 0
  |}.

(** ** displayOptimizations *)

(** A line written by [console.log], with the [chalk] colour it is
    wrapped in. *)
Inductive colour : Type := blue | gray | green | yellow.

Definition line : Type := (colour * string)%type.

Fixpoint repeat_string (s : string) (n : nat) : string :=
  match n with
  | O => EmptyString
  | S n' => (s ++ repeat_string s n')%string
  end.

Definition newline : string := String (Ascii.ascii_of_nat 10) EmptyString.

Definition high_latency_block : list string :=
  ["High average latency detected. Consider:";
   "  • Using a closer RPC endpoint";
   "  • Implementing request caching";
   "  • Using connection pooling"]%string.

Definition facilitator_block : list string :=
  ["Facilitator latency is high. Consider:";
   "  • Using a geographically closer facilitator";
   "  • Implementing facilitator health checking"]%string.

Definition error_rate_block : list string :=
  ["Error rate is elevated. Consider:";
   "  • Implementing retry logic with exponential backoff";
   "  • Adding circuit breaker patterns";
   "  • Monitoring facilitator health"]%string.

Definition low_throughput_block : list string :=
  ["Low throughput detected. Consider:";
   "  • Batching requests when possible";
   "  • Using connection keep-alive";
   "  • Optimizing payload sizes"]%string.

(** [results.reduce((sum, r) => sum + r.avgTimeMs, 0) / results.length] *)
Definition avgLatency (results : list BenchmarkResult) : JS.number :=
  JS.div (fold_left (fun sum r => JS.add sum (avgTimeMs r)) results (JS.Fin 0))
         (JS.of_nat (List.length results)).

(** [Math.max(...results.map(r => r.opsPerSecond))] *)
Definition maxOps (results : list BenchmarkResult) : JS.number :=
  JS.Math_max (map opsPerSecond results).

(** The array [recommendations] after the four [if] statements. *)
Definition recommendations (results : list BenchmarkResult)
    (networkMetrics : NetworkMetrics) : list string :=
  let recs : list string := [] in
  let recs :=
    if JS.gt (avgLatency results) (JS.Fin 500)
    then recs ++ high_latency_block else recs in
  let recs :=
    if JS.gt (facilitatorLatency networkMetrics) (JS.Fin 200)
    then recs ++ facilitator_block else recs in
  let recs :=
    if existsb (fun r => JS.gt (errorRate r) (JS.Fin 5)) results
    then recs ++ error_rate_block else recs in
  let recs :=
    if JS.lt (maxOps results) (JS.Fin 10)
    then recs ++ low_throughput_block else recs in
  recs.

Definition banner : list line :=
  [(blue, (newline ++ "🚀 Performance Optimization Recommendations")%string);
   (gray, repeat_string "═" 80)].

Definition all_good : line :=
  (green, "✅ Performance looks good! No immediate optimizations needed."%string).

Definition print_recommendation (rec : string) : line :=
  if String.prefix "  " rec then (gray, rec)
  else (yellow, ("⚠️  " ++ rec)%string).

(** Everything the function writes to the console, in order. *)
Definition displayOptimizations (results : list BenchmarkResult)
    (networkMetrics : NetworkMetrics) : list line :=
  let recs := recommendations results networkMetrics in
  banner ++
  (if (List.length recs =? 0)%nat then [all_good]
   else map print_recommendation recs).

(** *** The rule table of the specification *)

Inductive rule : Type :=
| HighAverageLatency
| HighFacilitatorLatency
| ElevatedErrorRate
| LowThroughput.

Definition rule_table : list rule :=
  [HighAverageLatency; HighFacilitatorLatency; ElevatedErrorRate;
   LowThroughput].

Definition fires (results : list BenchmarkResult)
    (networkMetrics : NetworkMetrics) (r : rule) : bool :=
  match r with
  | HighAverageLatency => JS.gt (avgLatency results) (JS.Fin 500)
  | HighFacilitatorLatency =>
      JS.gt (facilitatorLatency networkMetrics) (JS.Fin 200)
  | ElevatedErrorRate =>
      existsb (fun r => JS.gt (errorRate r) (JS.Fin 5)) results
  | LowThroughput => JS.lt (maxOps results) (JS.Fin 10)
  end.

Definition block (r : rule) : list string :=
  match r with
  | HighAverageLatency => high_latency_block
  | HighFacilitatorLatency => facilitator_block
  | ElevatedErrorRate => error_rate_block
  | LowThroughput => low_throughput_block
  end.

(** *** The percentile rule of the specification *)

(** [floor(n * q)], clamped to [[0, n-1]]. *)
Definition clamped_floor_index (n : nat) (q : Q) : nat :=
  Z.to_nat
    (Z.max 0 (Z.min (Z.of_nat n - 1) (Qfloor (inject_Z (Z.of_nat n) * q)))).

(** The element of the ascending-sorted collection at that index. *)
Definition percentile_rule (sorted : list Q) (q : Q) : option Q :=
  nth_error sorted (clamped_floor_index (List.length sorted) q).

(** ** Inputs and readings used in the statements *)

(** The index [floor(n * a / b)] as a natural number. *)
Definition floor_index (n : nat) (a : Z) (b : positive) : nat :=
  Z.to_nat (a * Z.of_nat n / Zpos b).

(** The samples 1, 2, ..., 100 (milliseconds). *)
Definition one_to_hundred : samples :=
  map (fun k => inject_Z (Z.of_nat k)) (seq 1 100).

Definition twelve_endpoints : list string :=
  ["http://localhost:3000/a"; "http://localhost:3000/b";
   "http://localhost:3000/c"; "http://localhost:3000/d";
   "http://localhost:3000/e"; "http://localhost:3000/f";
   "http://localhost:3000/g"; "http://localhost:3000/h";
   "http://localhost:3000/i"; "http://localhost:3000/j";
   "http://localhost:3000/k"; "http://localhost:3000/l"]%string.

(** The reading of the specification: trial [j] of the batch benchmark
    dispatches group [j] and nothing else. *)
Definition one_group_per_trial (client : nat -> string -> response)
    (clock : nat -> Q) (endpoints : list string) (k : nat) : Prop :=
  forall bs, make_batches (List.length endpoints) endpoints k 0 [] = Some bs ->
  forall j, (j < Nat.min 10 (List.length bs))%nat ->
    requests (batch_testFn client clock bs (S j)) = [nth j bs []].

(** What a probe of either class returns. *)
Definition latency_of (probe : option Q) : JS.number :=
  match probe with
  | Some t => JS.Fin t
  | None => sentinel
  end.

(** The measured times of the probes that succeeded. *)
Definition successes (probes : list (option Q)) : list Q :=
  flat_map (fun p => match p with Some t => [t] | None => [] end) probes.

(** The measured times of the probes that succeeded with a time above
    zero. *)
Definition positive_successes (probes : list (option Q)) : list Q :=
  filter (fun t => JS.Qlt_bool 0 t) (successes probes).

Definition facilitator_probes (net : network) : list (option Q) :=
  map (fun url => fetch_get net (url ++ "/supported")) facilitators.

Definition rpc_probes (net : network) : list (option Q) :=
  map (fetch_post net) rpcEndpoints.

(** A network on which nothing answers. *)
Definition unreachable : network :=
  {| fetch_get := fun _ => None; fetch_post := fun _ => None |}.

(** The reading of the specification: the latency of a class is the
    average over every probe that succeeded, whatever time it measured. *)
Definition averages_every_success (net : network) : Prop :=
  forall m, analyzeNetwork net = Returned m ->
    JS.same_value (facilitatorLatency m)
      (average_or_sentinel (map JS.Fin (successes (facilitator_probes net)))) /\
    JS.same_value (rpcLatency m)
      (average_or_sentinel (map JS.Fin (successes (rpc_probes net)))).

(** A network whose first facilitator answers within the resolution of
    the clock (0 ms), the two others in 10 and 20 ms. *)
Definition instant_facilitator : network :=
  {| fetch_get := fun url =>
       if String.eqb url "https://facilitator.x402.org/supported" then Some 0
       else if String.eqb url "https://facilitator.thirdweb.com/supported"
            then Some 10
            else Some 20;
     fetch_post := fun _ => Some 30 |}.

(** A result with the given average, error rate and throughput. *)
Definition result_with (avg err ops : Q) : BenchmarkResult :=
  {| operation := "Payment Verification";
     iterations := 25; totalTimeMs := 500;
     avgTimeMs := JS.Fin avg; minTimeMs := JS.Fin avg; maxTimeMs := JS.Fin avg;
     p50Ms := JS.Fin avg; p95Ms := JS.Fin avg; p99Ms := JS.Fin avg;
     opsPerSecond := JS.Fin ops; success := 25; errors := 0;
     errorRate := JS.Fin err |}.

Definition metrics_with (fac : JS.number) : NetworkMetrics :=
  {| facilitatorLatency := fac; rpcLatency := JS.Fin 40;
     totalRoundTrips := 6; dataTransferred := 0 |}.

(** * Properties *)

(** ** Numbers and arrays *)

Lemma get_integer (A : Type) (arr : list A) (q : Q) (z : Z) :
  q == inject_Z z -> (0 <= z)%Z ->
  JS.get arr (JS.Fin q) = nth_error arr (Z.to_nat z).
Proof.
  intros Hq Hz. unfold JS.get.
  assert (Hf : Qfloor q = z) by (rewrite (Qfloor_comp _ _ Hq); apply Qfloor_Z).
  rewrite Hf.
  assert (Hb : Qeq_bool q (inject_Z z) = true) by (apply Qeq_bool_iff; exact Hq).
  rewrite Hb.
  assert (Hl : (0 <=? z)%Z = true) by (apply Z.leb_le; exact Hz).
  rewrite Hl. reflexivity.
Qed.

Lemma floor_of_length_times (n : nat) (a : Z) (b : positive) :
  Qfloor (inject_Z (Z.of_nat n) * (a # b)) = (a * Z.of_nat n / Zpos b)%Z.
Proof.
  rewrite Zdiv_Qdiv. apply Qfloor_comp.
  rewrite inject_Z_mult. unfold Qeq, Qdiv, Qmult, Qinv, inject_Z; simpl.
  lia.
Qed.

Lemma round2_Fin (x : Q) :
  round2 (JS.Fin x) =
  JS.Fin (inject_Z (Qfloor (x * 100 + (1 # 2))) / 100).
Proof. reflexivity. Qed.

Lemma round2_monotone (x y : Q) :
  x <= y -> JS.le (round2 (JS.Fin x)) (round2 (JS.Fin y)) = true.
Proof.
  intros Hxy. rewrite !round2_Fin. simpl. apply Qle_bool_iff.
  assert (Hz : (Qfloor (x * 100 + (1 # 2)) <= Qfloor (y * 100 + (1 # 2)))%Z)
    by (apply Qfloor_resp_le; lra).
  apply Qmult_le_compat_r.
  - rewrite <- Zle_Qle. exact Hz.
  - discriminate.
Qed.

(** ** The sort *)

Lemma insert_ascending (x : Q) (s : list Q) :
  StronglySorted Qle s ->
  exists s', JS.insert ascending (JS.Fin x) (map JS.Fin s) = map JS.Fin s' /\
             Permutation s' (x :: s) /\ StronglySorted Qle s'.
Proof.
  induction s as [| y s IH]; intros Hs.
  - exists [x]. repeat split; auto. repeat constructor.
  - inversion Hs as [| ? ? Hs' Hall]; subst.
    simpl. unfold JS.Qlt_bool.
    destruct (Qle_bool (x + - y) 0) eqn:E; simpl.
    + apply Qle_bool_iff in E.
      exists (x :: y :: s). repeat split; auto.
      constructor; [exact Hs |].
      constructor; [lra |].
      rewrite Forall_forall in Hall |- *. intros z Hz.
      specialize (Hall z Hz). lra.
    + destruct (IH Hs') as (s' & Heq & Hperm & Hsorted).
      exists (y :: s'). rewrite Heq. repeat split; auto.
      * rewrite Hperm. apply perm_swap.
      * constructor; [exact Hsorted |].
        assert (Hyx : y <= x).
        { destruct (Qlt_le_dec 0 (x + - y)) as [H | H]; [lra |].
          apply Qle_bool_iff in H. congruence. }
        rewrite Forall_forall in Hall |- *. intros z Hz.
        apply (Permutation_in _ Hperm) in Hz. destruct Hz as [<- | Hz]; auto.
Qed.

Lemma sort_ascending (l : list Q) :
  exists s, JS.sort ascending (map JS.Fin l) = map JS.Fin s /\
            Permutation s l /\ StronglySorted Qle s.
Proof.
  induction l as [| x l IH].
  - exists []. repeat split; auto. constructor.
  - destruct IH as (s & Heq & Hperm & Hsorted). simpl. rewrite Heq.
    destruct (insert_ascending x Hsorted) as (s' & Heq' & Hperm' & Hsorted').
    exists s'. repeat split; auto.
    rewrite Hperm'. constructor. exact Hperm.
Qed.

Lemma sorted_nth_error_le (s : list Q) :
  StronglySorted Qle s ->
  forall i j x y, (i <= j)%nat ->
    nth_error s i = Some x -> nth_error s j = Some y -> x <= y.
Proof.
  induction 1 as [| a s Hs IH Hall]; intros i j x y Hij Hi Hj.
  - destruct i; discriminate.
  - destruct i as [| i], j as [| j]; simpl in *.
    + injection Hi as <-. injection Hj as <-. apply Qle_refl.
    + injection Hi as <-. rewrite Forall_forall in Hall.
      apply Hall. eapply nth_error_In; eauto.
    + lia.
    + apply (IH i j x y); auto. lia.
Qed.

(** The five order statistics that [calculateStats] reads, for a sorted
    array of [n >= 1] finite numbers. *)
Lemma get_min (s : list Q) :
  JS.get (map JS.Fin s) (JS.Fin 0) = nth_error (map JS.Fin s) 0.
Proof. apply (get_integer _ (q := 0) (z := 0)); [reflexivity | lia]. Qed.

Lemma get_max (s : list Q) :
  s <> [] ->
  JS.get (map JS.Fin s)
    (JS.sub (JS.of_nat (List.length (map JS.Fin s))) (JS.Fin 1)) =
  nth_error (map JS.Fin s) (List.length s - 1).
Proof.
  intros Hne. rewrite length_map. unfold JS.sub, JS.of_nat, JS.of_Z; simpl.
  assert (Hlen : (1 <= List.length s)%nat)
    by (destruct s; [congruence | simpl; lia]).
  replace (List.length s - 1)%nat
    with (Z.to_nat (Z.of_nat (List.length s) - 1)) by lia.
  apply get_integer; [| lia].
  unfold Z.sub. rewrite inject_Z_plus. reflexivity.
Qed.

Lemma get_percentile (s : list Q) (a : Z) (b : positive) :
  (0 <= a)%Z ->
  JS.get (map JS.Fin s)
    (JS.Math_floor
       (JS.mul (JS.of_nat (List.length (map JS.Fin s))) (JS.Fin (a # b)))) =
  nth_error (map JS.Fin s)
    (Z.to_nat (a * Z.of_nat (List.length s) / Zpos b)).
Proof.
  intros Ha. rewrite length_map. unfold JS.of_nat at 1, JS.of_Z at 1. simpl JS.mul.
  unfold JS.Math_floor, JS.of_Z. rewrite floor_of_length_times.
  apply get_integer; [reflexivity |].
  apply Z.div_pos; lia.
Qed.

Lemma floor_index_bounds (n : nat) :
  (1 <= n)%nat ->
  (floor_index n 5 10 <= floor_index n 95 100)%nat /\
  (floor_index n 95 100 <= floor_index n 99 100)%nat /\
  (floor_index n 99 100 <= n - 1)%nat.
Proof.
  intros Hn. unfold floor_index.
  assert (H : (0 <= 5 * Z.of_nat n / 10 /\
               5 * Z.of_nat n / 10 <= 95 * Z.of_nat n / 100 /\
               95 * Z.of_nat n / 100 <= 99 * Z.of_nat n / 100 /\
               99 * Z.of_nat n / 100 <= Z.of_nat n - 1)%Z)
    by (Z.to_euclidean_division_equations; lia).
  lia.
Qed.

Lemma read_sorted (s : list Q) (i : nat) :
  (i < List.length s)%nat ->
  exists v, nth_error s i = Some v /\
            JS.to_number (nth_error (map JS.Fin s) i) = JS.Fin v.
Proof.
  intros Hi. destruct (nth_error s i) as [v |] eqn:E.
  - exists v. split; [reflexivity |].
    rewrite nth_error_map, E. reflexivity.
  - apply nth_error_None in E. lia.
Qed.

(** What [calculateStats] returns on a non-empty collection: the result
    exists, and its five order statistics are the 2-decimal roundings of
    the entries [0], [floor(n/2)], [floor(95n/100)], [floor(99n/100)] and
    [n-1] of a sorted permutation of the samples. *)
Lemma calculateStats_shape (m : samples) (op : string) (it : nat) (tt : Z)
    (sc ec : nat) :
  m <> [] ->
  exists (s : list Q) (r : BenchmarkResult) (vmin v50 v95 v99 vmax : Q),
    Permutation s m /\ StronglySorted Qle s /\
    calculateStats m op it tt sc ec = Returned r /\
    nth_error s 0 = Some vmin /\
    nth_error s (floor_index (List.length s) 5 10) = Some v50 /\
    nth_error s (floor_index (List.length s) 95 100) = Some v95 /\
    nth_error s (floor_index (List.length s) 99 100) = Some v99 /\
    nth_error s (List.length s - 1) = Some vmax /\
    minTimeMs r = round2 (JS.Fin vmin) /\
    p50Ms r = round2 (JS.Fin v50) /\
    p95Ms r = round2 (JS.Fin v95) /\
    p99Ms r = round2 (JS.Fin v99) /\
    maxTimeMs r = round2 (JS.Fin vmax) /\
    iterations r = it /\ success r = sc /\ errors r = ec.
Proof.
  intros Hne.
  destruct (sort_ascending m) as (s & Heq & Hperm & Hsorted).
  assert (Hlen : List.length s = List.length m) by (apply Permutation_length; exact Hperm).
  assert (Hpos : (1 <= List.length m)%nat)
    by (destruct m; [congruence | simpl; lia]).
  assert (Hs : s <> []) by (intros ->; simpl in Hlen; lia).
  destruct (floor_index_bounds (n := List.length s)) as (H1 & H2 & H3); [lia |].
  destruct (@read_sorted s 0) as (vmin & Emin & Nmin); [lia |].
  destruct (@read_sorted s (floor_index (List.length s) 5 10))
    as (v50 & E50 & N50); [lia |].
  destruct (@read_sorted s (floor_index (List.length s) 95 100))
    as (v95 & E95 & N95); [lia |].
  destruct (@read_sorted s (floor_index (List.length s) 99 100))
    as (v99 & E99 & N99); [lia |].
  destruct (@read_sorted s (List.length s - 1)) as (vmax & Emax & Nmax); [lia |].
  unfold calculateStats.
  assert (Hz : (List.length m =? 0)%nat = false) by (apply Nat.eqb_neq; lia).
  rewrite Hz, Heq. eexists s, _, vmin, v50, v95, v99, vmax.
  repeat (split; [first [eassumption | reflexivity] |]).
  cbn [minTimeMs p50Ms p95Ms p99Ms maxTimeMs iterations success errors].
  unfold percentile, q50, q95, q99.
  rewrite get_min, (get_max Hs), !get_percentile by lia.
  fold (floor_index (List.length s) 5 10).
  fold (floor_index (List.length s) 95 100).
  fold (floor_index (List.length s) 99 100).
  rewrite Nmin, N50, N95, N99, Nmax.
  repeat split; reflexivity.
Qed.

Lemma clamped_floor_index_in_range (n : nat) (a : Z) (b : positive) :
  (0 <= a * Z.of_nat n / Zpos b <= Z.of_nat n - 1)%Z ->
  clamped_floor_index n (a # b) = floor_index n a b.
Proof.
  intros H. unfold clamped_floor_index, floor_index.
  rewrite floor_of_length_times. f_equal. lia.
Qed.

Lemma percentile_rule_floor (s : list Q) (a : Z) (b : positive) :
  (floor_index (List.length s) a b <= List.length s - 1)%nat ->
  (1 <= List.length s)%nat -> (0 <= a)%Z ->
  percentile_rule s (a # b) = nth_error s (floor_index (List.length s) a b).
Proof.
  intros Hle Hn Ha. unfold percentile_rule.
  rewrite clamped_floor_index_in_range; [reflexivity |].
  unfold floor_index in Hle.
  assert (0 <= a * Z.of_nat (List.length s) / Z.pos b)%Z
    by (apply Z.div_pos; lia).
  lia.
Qed.

(** A sorted list is the only sorted arrangement of a strictly
    increasing one. *)
Lemma sorted_permutation_unique (s t : list Q) :
  StronglySorted Qle s -> StronglySorted Qlt t -> Permutation s t -> s = t.
Proof.
  intros Hs. revert t.
  induction Hs as [| a s Hs IH Ha]; intros t Ht Hperm.
  - apply Permutation_nil in Hperm. symmetry. exact Hperm.
  - destruct t as [| b t].
    + apply Permutation_sym, Permutation_nil in Hperm. discriminate.
    + inversion Ht as [| ? ? Ht' Hb]; subst.
      rewrite Forall_forall in Ha, Hb.
      assert (Hab : a = b).
      { assert (Hin1 : In a (b :: t))
          by (apply (Permutation_in _ Hperm); left; reflexivity).
        assert (Hin2 : In b (a :: s))
          by (apply (Permutation_in _ (Permutation_sym Hperm)); left; reflexivity).
        destruct Hin1 as [E | Hin1]; [symmetry; exact E |].
        destruct Hin2 as [E | Hin2]; [exact E |].
        specialize (Ha _ Hin2). specialize (Hb _ Hin1). lra. }
      subst b. f_equal. apply IH; [exact Ht' |].
      eapply Permutation_cons_inv. exact Hperm.
Qed.

Lemma one_to_hundred_increasing : StronglySorted Qlt one_to_hundred.
Proof.
  unfold one_to_hundred. generalize 1%nat, 100%nat. intros a n. revert a.
  induction n as [| n IH]; intros a; simpl; constructor.
  - apply IH.
  - rewrite Forall_forall. intros x Hx. apply in_map_iff in Hx.
    destruct Hx as (k & <- & Hk). apply in_seq in Hk.
    rewrite <- Zlt_Qlt. lia.
Qed.

(** ** Binary64: the floor of a length times a percentile literal *)

Section Binary64Facts.

Import Binary64.
Local Unset Implicit Arguments.
Local Open Scope Z_scope.

Lemma digits2_pos_spec (p : positive) : forall k,
  2 ^ (k - 1) <= Zpos p < 2 ^ k -> Zpos (digits2_pos p) = k.
Proof.
  induction p as [p IH | p IH |]; intros k Hk; simpl digits2_pos.
  - assert (1 < k).
    { destruct (Z_lt_le_dec 1 k) as [H | H]; [exact H |].
      assert (2 ^ k <= 2 ^ 1) by (apply Z.pow_le_mono_r; lia). simpl in *. lia. }
    rewrite Pos2Z.inj_succ, (IH (k - 1)); [lia |].
    replace (2 ^ k) with (2 * 2 ^ (k - 1)) in Hk
      by (rewrite <- Z.pow_succ_r by lia; f_equal; lia).
    replace (2 ^ (k - 1)) with (2 * 2 ^ (k - 1 - 1)) in Hk at 1
      by (rewrite <- Z.pow_succ_r by lia; f_equal; lia).
    lia.
  - assert (1 < k).
    { destruct (Z_lt_le_dec 1 k) as [H | H]; [exact H |].
      assert (2 ^ k <= 2 ^ 1) by (apply Z.pow_le_mono_r; lia). simpl in *. lia. }
    rewrite Pos2Z.inj_succ, (IH (k - 1)); [lia |].
    replace (2 ^ k) with (2 * 2 ^ (k - 1)) in Hk
      by (rewrite <- Z.pow_succ_r by lia; f_equal; lia).
    replace (2 ^ (k - 1)) with (2 * 2 ^ (k - 1 - 1)) in Hk at 1
      by (rewrite <- Z.pow_succ_r by lia; f_equal; lia).
    lia.
  - destruct (Z.eq_dec k 1) as [-> | Hne]; [reflexivity |].
    exfalso. destruct (Z_lt_le_dec k 1) as [H | H].
    + destruct Hk as [_ Hk].
      destruct (Z_lt_le_dec k 0) as [H0 | H0].
      * rewrite Z.pow_neg_r in Hk by lia. lia.
      * assert (k = 0) by lia. subst. simpl in Hk. lia.
    + assert (2 ^ 1 <= 2 ^ (k - 1)) by (apply Z.pow_le_mono_r; lia).
      simpl in *. lia.
Qed.

Lemma iter_pos_nat (A : Type) (f : A -> A) (p : positive) : forall x,
  iter_pos f p x = Nat.iter (Pos.to_nat p) f x.
Proof.
  induction p as [p IH | p IH |]; intros x; simpl iter_pos.
  - rewrite !IH, Pos2Nat.inj_xI.
    replace (S (2 * Pos.to_nat p)) with (Pos.to_nat p + S (Pos.to_nat p))%nat by lia.
    rewrite Nat.iter_add, Nat.iter_succ_r. reflexivity.
  - rewrite !IH, Pos2Nat.inj_xO.
    replace (2 * Pos.to_nat p)%nat with (Pos.to_nat p + Pos.to_nat p)%nat by lia.
    rewrite Nat.iter_add. reflexivity.
  - reflexivity.
Qed.

Lemma shr_1_spec (m : Z) (r s : bool) :
  0 <= m ->
  shr_1 {| shr_m := m; shr_r := r; shr_s := s |} =
  {| shr_m := Z.div2 m; shr_r := Z.odd m; shr_s := r || s |}.
Proof.
  intros Hm. destruct m as [| [p | p |] | p]; try reflexivity; lia.
Qed.

Lemma shr_iter (m : Z) (k : nat) :
  0 <= m ->
  Nat.iter (S k) shr_1 {| shr_m := m; shr_r := false; shr_s := false |} =
  {| shr_m := m / 2 ^ Z.of_nat (S k);
     shr_r := Z.testbit m (Z.of_nat k);
     shr_s := negb (m mod 2 ^ Z.of_nat k =? 0) |}.
Proof.
  intros Hm. induction k as [| k IH].
  - rewrite Nat.iter_succ. cbn [Nat.iter nat_rect]. rewrite shr_1_spec by exact Hm.
    rewrite Z.div2_div, Z.bit0_odd. simpl. rewrite Z.mod_1_r. reflexivity.
  - rewrite Nat.iter_succ, IH.
    assert (Hp : 0 < 2 ^ Z.of_nat (S k)) by (apply Z.pow_pos_nonneg; lia).
    rewrite shr_1_spec by (apply Z.div_pos; lia).
    f_equal.
    + rewrite Z.div2_div, Z.div_div by lia.
      rewrite (Nat2Z.inj_succ (S k)), Z.pow_succ_r by lia. f_equal. lia.
    + rewrite Z.testbit_odd, Z.shiftr_div_pow2 by lia. reflexivity.
    + rewrite (Nat2Z.inj_succ k), Z.pow_succ_r by lia.
      assert (Hk : 0 < 2 ^ Z.of_nat k) by (apply Z.pow_pos_nonneg; lia).
      rewrite (Z.mul_comm 2), Z.rem_mul_r by lia.
      destruct (Z.testbit m (Z.of_nat k)) eqn:Hb.
      * apply Z.testbit_true in Hb; [| lia]. rewrite Hb. simpl.
        symmetry. apply negb_true_iff, Z.eqb_neq.
        pose proof (Z.mod_pos_bound m (2 ^ Z.of_nat k) Hk). lia.
      * apply Z.testbit_false in Hb; [| lia]. rewrite Hb. simpl.
        rewrite Z.mul_0_r, Z.add_0_r. reflexivity.
Qed.

Lemma pow2_split (a b : Z) : 0 <= a -> 0 <= b -> 2 ^ (a + b) = 2 ^ a * 2 ^ b.
Proof. intros. apply Z.pow_add_r; assumption. Qed.

(** Rounding a positive product mantissa [P] of [53 + s] digits, [s >= 1],
    away from underflow and overflow. *)
Lemma binary_round_aux_spec (P : positive) (e : Z) (s : positive) :
  2 ^ (52 + Zpos s) <= Zpos P < 2 ^ (53 + Zpos s) ->
  -1074 <= e + Zpos s -> e + Zpos s + 1 <= 971 ->
  exists m'' M E,
    binary_round_aux prec emax false (Zpos P) e loc_Exact =
      S754_finite false M E /\
    Zpos P / 2 ^ Zpos s <= m'' <= Zpos P / 2 ^ Zpos s + 1 /\
    (2 * (Zpos P mod 2 ^ Zpos s) < 2 ^ Zpos s -> m'' = Zpos P / 2 ^ Zpos s) /\
    (2 ^ Zpos s < 2 * (Zpos P mod 2 ^ Zpos s) -> m'' = Zpos P / 2 ^ Zpos s + 1) /\
    ((Zpos M = m'' /\ E = e + Zpos s) \/
     (m'' = 2 ^ 53 /\ Zpos M = 2 ^ 52 /\ E = e + Zpos s + 1)).
Proof.
  intros HP Hlo Hhi.
  assert (Hs : 0 < 2 ^ Zpos s) by (apply Z.pow_pos_nonneg; lia).
  rewrite (pow2_split 52 (Zpos s)), (pow2_split 53 (Zpos s)) in HP by lia.
  set (m' := Zpos P / 2 ^ Zpos s).
  set (rem := Zpos P mod 2 ^ Zpos s).
  assert (Hdm : Zpos P = 2 ^ Zpos s * m' + rem) by (apply Z.div_mod; lia).
  assert (Hrem : 0 <= rem < 2 ^ Zpos s) by (apply Z.mod_pos_bound; lia).
  assert (Hm' : 2 ^ 52 <= m' < 2 ^ 53) by (split; nia).
  unfold binary_round_aux, shr_fexp.
  assert (Hdig : Zdigits2 (Zpos P) = 53 + Zpos s).
  { change (Zdigits2 (Zpos P)) with (Zpos (digits2_pos P)).
    apply digits2_pos_spec.
    replace (53 + Zpos s - 1) with (52 + Zpos s) by lia.
    rewrite (pow2_split 52 (Zpos s)), (pow2_split 53 (Zpos s)) by lia. exact HP. }
  rewrite Hdig.
  assert (Hfexp : fexp prec emax (53 + Zpos s + e) - e = Zpos s)
    by (unfold fexp, emin, prec, emax; lia).
  rewrite Hfexp. unfold shr. cbn [shr_record_of_loc].
  rewrite iter_pos_nat.
  destruct (Pos2Nat.is_succ s) as (k & Hk). rewrite Hk, shr_iter by lia.
  assert (HkZ : Z.of_nat k = Zpos s - 1) by lia.
  assert (HSk : Z.of_nat (S k) = Zpos s) by lia.
  rewrite HSk, HkZ. fold m'.
  cbn [shr_m].
  (* the low half *)
  assert (Hhalf : 2 ^ Zpos s = 2 * 2 ^ (Zpos s - 1)).
  { rewrite <- Z.pow_succ_r by lia. f_equal. lia. }
  assert (Hh : 0 < 2 ^ (Zpos s - 1)) by (apply Z.pow_pos_nonneg; lia).
  assert (Hsplit : rem = 2 ^ (Zpos s - 1) * ((Zpos P / 2 ^ (Zpos s - 1)) mod 2)
                         + Zpos P mod 2 ^ (Zpos s - 1)).
  { unfold rem. rewrite Hhalf, (Z.mul_comm 2), Z.rem_mul_r by lia. lia. }
  assert (Hlow : 0 <= Zpos P mod 2 ^ (Zpos s - 1) < 2 ^ (Zpos s - 1))
    by (apply Z.mod_pos_bound; lia).
  set (m'' := round_nearest_even m'
      (loc_of_shr_record
         {| shr_m := m';
            shr_r := Z.testbit (Zpos P) (Zpos s - 1);
            shr_s := negb (Zpos P mod 2 ^ (Zpos s - 1) =? 0) |})).
  assert (Hround : m' <= m'' <= m' + 1 /\
                   (2 * rem < 2 ^ Zpos s -> m'' = m') /\
                   (2 ^ Zpos s < 2 * rem -> m'' = m' + 1)).
  { unfold m''. destruct (Z.testbit (Zpos P) (Zpos s - 1)) eqn:Hb.
    - apply Z.testbit_true in Hb; [| lia]. rewrite Hb in Hsplit.
      destruct (Zpos P mod 2 ^ (Zpos s - 1) =? 0) eqn:Hz;
        cbn [round_nearest_even loc_of_shr_record negb].
      + apply Z.eqb_eq in Hz. destruct (Z.even m'); lia.
      + apply Z.eqb_neq in Hz. lia.
    - apply Z.testbit_false in Hb; [| lia]. rewrite Hb in Hsplit.
      destruct (Zpos P mod 2 ^ (Zpos s - 1) =? 0) eqn:Hz;
        cbn [round_nearest_even loc_of_shr_record negb]; [lia |].
      apply Z.eqb_neq in Hz. lia. }
  clearbody m''. destruct Hround as (Hr1 & Hr2 & Hr3).
  destruct (Z.eq_dec m'' (2 ^ 53)) as [Heq | Hne].
  - exists m''. eexists. eexists. split.
    + assert (Hdig2 : Zdigits2 m'' = 54) by (rewrite Heq; reflexivity).
      rewrite Hdig2.
      assert (Hfexp2 : fexp prec emax (54 + (e + Zpos s)) - (e + Zpos s) = 1)
        by (unfold fexp, emin, prec, emax; lia).
      rewrite Hfexp2, Heq. cbn [shr_record_of_loc]. cbn -[Z.leb Z.add].
      assert (Hle : (e + Zpos s + 1 <=? emax - prec) = true)
        by (apply Z.leb_le; unfold emax, prec; lia).
      rewrite Hle. reflexivity.
    + fold rem. split; [exact Hr1 |]. split; [exact Hr2 |]. split; [exact Hr3 |].
      right. split; [exact Heq |]. split; reflexivity.
  - assert (Hpos : 0 < m'') by lia.
    destruct m'' as [| q | q]; try lia.
    exists (Zpos q), q, (e + Zpos s). split.
    + assert (Hdig2 : Zdigits2 (Zpos q) = 53).
      { change (Zdigits2 (Zpos q)) with (Zpos (digits2_pos q)).
        apply digits2_pos_spec. change (2 ^ (53 - 1)) with (2 ^ 52). lia. }
      rewrite Hdig2.
      assert (Hfexp2 : fexp prec emax (53 + (e + Zpos s)) - (e + Zpos s) = 0)
        by (unfold fexp, emin, prec, emax; lia).
      rewrite Hfexp2. cbn [shr_record_of_loc shr shr_m fst snd].
      assert (Hle : (e + Zpos s <=? emax - prec) = true)
        by (apply Z.leb_le; unfold emax, prec; lia).
      rewrite Hle. reflexivity.
    + fold rem. split; [exact Hr1 |]. split; [exact Hr2 |]. split; [exact Hr3 |].
      left. split; reflexivity.
Qed.

Ltac eval_pow2 :=
  repeat match goal with
  | |- context [2 ^ ?c] =>
      let v := eval vm_compute in (2 ^ c) in
      progress change (2 ^ c) with v
  | H : context [2 ^ ?c] |- _ =>
      let v := eval vm_compute in (2 ^ c) in
      progress change (2 ^ c) with v in H
  end.

Ltac split_range D lo hi :=
  let rec go k fuel :=
    lazymatch fuel with
    | O => idtac
    | S ?fuel' =>
        destruct (Z.eq_dec D k) as [-> | ?];
        [ | let k' := eval vm_compute in (k + 1) in go k' fuel' ]
    end in
  go lo hi.

(** The integer arithmetic behind the rounding of the product, binade by
    binade. *)
Lemma rounding_arith (a b C n D mx P m'' s : Z) :
  (a, b, C) = (95, 100, 8556839292003942) \/
  (a, b, C) = (99, 100, 8917127262193582) \/
  (a, b, C) = (5, 10, 4503599627370496) ->
  1 <= D <= 32 ->
  2 ^ (D - 1) <= n < 2 ^ D ->
  mx = n * 2 ^ (53 - D) ->
  P = mx * C ->
  (s = 52 /\ P < 2 ^ 105 \/ s = 53 /\ 2 ^ 105 <= P) ->
  P / 2 ^ s <= m'' <= P / 2 ^ s + 1 ->
  (2 * (P mod 2 ^ s) < 2 ^ s -> m'' = P / 2 ^ s) ->
  (2 ^ s < 2 * (P mod 2 ^ s) -> m'' = P / 2 ^ s + 1) ->
  m'' / 2 ^ (106 - D - s) = a * n / b.
Proof.
  intros Hlit HD Hn Hmx HP Hs H1 H2 H3.
  assert (Ha : a = 95 /\ b = 100 /\ C = 8556839292003942 \/
               a = 99 /\ b = 100 /\ C = 8917127262193582 \/
               a = 5 /\ b = 10 /\ C = 4503599627370496).
  { destruct Hlit as [H | [H | H]]; injection H; intros; subst; auto. }
  clear Hlit.
  split_range D 1 32%nat; [.. | lia];
  destruct Ha as [(-> & -> & ->) | [(-> & -> & ->) | (-> & -> & ->)]];
  (destruct Hs as [[-> Hs] | [-> Hs]]; eval_pow2; subst mx P;
   Z.to_euclidean_division_equations; lia).
Qed.

Lemma iter_xO (p d : positive) : Zpos (Pos.iter xO p d) = Zpos p * 2 ^ Zpos d.
Proof.
  induction d as [| d IH] using Pos.peano_ind.
  - simpl. lia.
  - rewrite Pos.iter_succ, Pos2Z.inj_xO, IH, Pos2Z.inj_succ, Z.pow_succ_r by lia.
    lia.
Qed.

Lemma binary_round_aux_exact (m : positive) (e : Z) :
  2 ^ 52 <= Zpos m < 2 ^ 53 -> -1074 <= e <= 971 ->
  binary_round_aux prec emax false (Zpos m) e loc_Exact = S754_finite false m e.
Proof.
  intros Hm He. unfold binary_round_aux, shr_fexp.
  assert (Hdig : Zdigits2 (Zpos m) = 53).
  { change (Zdigits2 (Zpos m)) with (Zpos (digits2_pos m)).
    apply digits2_pos_spec. change (2 ^ (53 - 1)) with (2 ^ 52). exact Hm. }
  rewrite Hdig.
  assert (Hfexp : fexp prec emax (53 + e) - e = 0)
    by (unfold fexp, emin, prec, emax; lia).
  rewrite Hfexp. cbn [shr_record_of_loc shr shr_m loc_of_shr_record round_nearest_even].
  rewrite Hdig, Hfexp. cbn [shr_record_of_loc shr shr_m].
  assert (Hle : (e <=? emax - prec) = true)
    by (apply Z.leb_le; unfold emax, prec; lia).
  rewrite Hle. reflexivity.
Qed.

Lemma of_Z_spec (n D : Z) :
  1 <= D <= 52 -> 2 ^ (D - 1) <= n < 2 ^ D ->
  exists mx : positive,
    of_Z n = S754_finite false mx (D - 53) /\ Zpos mx = n * 2 ^ (53 - D).
Proof.
  intros HD Hn.
  assert (Hpos : 0 < n).
  { assert (0 < 2 ^ (D - 1)) by (apply Z.pow_pos_nonneg; lia). lia. }
  destruct n as [| p | p]; try lia.
  unfold of_Z, binary_normalize, binary_round.
  rewrite (digits2_pos_spec p D Hn).
  assert (Hfexp : fexp prec emax (D + 0) = D - 53)
    by (unfold fexp, emin, prec, emax; lia).
  rewrite Hfexp. unfold shl_align.
  destruct (D - 53 - 0) as [| d | d] eqn:Hd; try lia.
  exists (Pos.iter xO p d).
  assert (Hmz : Zpos (Pos.iter xO p d) = Zpos p * 2 ^ (53 - D))
    by (rewrite iter_xO; f_equal; f_equal; lia).
  split; [| exact Hmz].
  apply binary_round_aux_exact; [| lia].
  rewrite Hmz.
  assert (H52 : 2 ^ 52 = 2 ^ (D - 1) * 2 ^ (53 - D))
    by (rewrite <- Z.pow_add_r by lia; f_equal; lia).
  assert (H53 : 2 ^ 53 = 2 ^ D * 2 ^ (53 - D))
    by (rewrite <- Z.pow_add_r by lia; f_equal; lia).
  assert (0 < 2 ^ (53 - D)) by (apply Z.pow_pos_nonneg; lia).
  rewrite H52, H53. split; nia.
Qed.

Lemma literal_values :
  literal 5 10 = S754_finite false 4503599627370496 (-53) /\
  literal 95 100 = S754_finite false 8556839292003942 (-53) /\
  literal 99 100 = S754_finite false 8917127262193582 (-53).
Proof. repeat split; vm_compute; reflexivity. Qed.

(** In binary64, [Math.floor(n * q)] is [floor(a * n / b)] for each of the
    three literals [q = a / b] and every array length [n]. *)
Lemma floor_mul_exact (a b : Z) (n : Z) :
  (a, b) = (5, 10) \/ (a, b) = (95, 100) \/ (a, b) = (99, 100) ->
  1 <= n < 2 ^ 32 ->
  floor_mul n (literal a b) = Some (a * n / b).
Proof.
  intros Hab Hn.
  set (D := Z.log2 n + 1).
  assert (HD : 2 ^ (D - 1) <= n < 2 ^ D).
  { unfold D. replace (Z.log2 n + 1 - 1) with (Z.log2 n) by lia.
    apply Z.log2_spec. lia. }
  assert (HD32 : 1 <= D <= 32).
  { unfold D. pose proof (Z.log2_nonneg n).
    assert (Z.log2 n < 32) by (apply Z.log2_lt_pow2; lia). lia. }
  destruct (of_Z_spec n D) as (mx & Hof & Hmx); [lia | exact HD |].
  assert (Hlit : exists C : positive,
             literal a b = S754_finite false C (-53) /\
             2 ^ 52 <= Zpos C < 2 ^ 53 /\
             ((a, b, Zpos C) = (95, 100, 8556839292003942) \/
              (a, b, Zpos C) = (99, 100, 8917127262193582) \/
              (a, b, Zpos C) = (5, 10, 4503599627370496))).
  { destruct literal_values as (L50 & L95 & L99).
    destruct Hab as [H | [H | H]]; injection H as -> ->;
      eexists; (split; [eassumption |]); (split; [simpl; lia |]); auto. }
  destruct Hlit as (C & HlitC & HC & Hcases).
  unfold floor_mul. rewrite Hof, HlitC. cbn [SFmul xorb].
  assert (Hmxb : 2 ^ 52 <= Zpos mx < 2 ^ 53).
  { rewrite Hmx.
    assert (H52 : 2 ^ 52 = 2 ^ (D - 1) * 2 ^ (53 - D))
      by (rewrite <- Z.pow_add_r by lia; f_equal; lia).
    assert (H53 : 2 ^ 53 = 2 ^ D * 2 ^ (53 - D))
      by (rewrite <- Z.pow_add_r by lia; f_equal; lia).
    assert (0 < 2 ^ (53 - D)) by (apply Z.pow_pos_nonneg; lia).
    rewrite H52, H53. split; nia. }
  assert (HP : 2 ^ 104 <= Zpos (mx * C) < 2 ^ 106).
  { rewrite Pos2Z.inj_mul.
    change (2 ^ 104) with (2 ^ 52 * 2 ^ 52).
    change (2 ^ 106) with (2 ^ 53 * 2 ^ 53). split; nia. }
  assert (Hs : exists s : positive,
             (Zpos s = 52 /\ Zpos (mx * C) < 2 ^ 105 \/
              Zpos s = 53 /\ 2 ^ 105 <= Zpos (mx * C)) /\
             2 ^ (52 + Zpos s) <= Zpos (mx * C) < 2 ^ (53 + Zpos s)).
  { destruct (Z_lt_le_dec (Zpos (mx * C)) (2 ^ 105)) as [H | H].
    - exists 52%positive. split; [left; split; [reflexivity | exact H] |].
      change (2 ^ (52 + 52)) with (2 ^ 104).
      change (2 ^ (53 + 52)) with (2 ^ 105). lia.
    - exists 53%positive. split; [right; split; [reflexivity | exact H] |].
      change (2 ^ (52 + 53)) with (2 ^ 105).
      change (2 ^ (53 + 53)) with (2 ^ 106). lia. }
  destruct Hs as (s & Hs & HPs).
  destruct (binary_round_aux_spec (mx * C) (D - 53 + -53) s HPs)
    as (m'' & M & E & Hround & Hm1 & Hm2 & Hm3 & HME); [lia | lia |].
  rewrite Hround.
  assert (Hgoal : m'' / 2 ^ (106 - D - Zpos s) = a * n / b).
  { apply (rounding_arith a b (Zpos C) n D (Zpos mx) (Zpos (mx * C)) m'' (Zpos s));
      try assumption; lia. }
  rewrite <- Hgoal. unfold floor. cbn [cond_Zopp].
  destruct HME as [(HM & HE) | (Hm'' & HM & HE)].
  - destruct E as [| q | q]; try lia.
    rewrite HM. do 3 f_equal. lia.
  - destruct E as [| q | q]; try lia.
    rewrite HM, Hm''.
    replace (106 - D - Zpos s) with (Zpos q + 1) by lia.
    rewrite Z.pow_add_r by lia. f_equal.
    change (2 ^ 53) with (2 ^ 52 * 2 ^ 1).
    assert (0 < 2 ^ Zpos q) by (apply Z.pow_pos_nonneg; lia).
    symmetry. apply Z.div_mul_cancel_r; lia.
Qed.

End Binary64Facts.

(** The binary64 evaluation of [Math.floor(n * q)] is the clamped floor
    index, for the three literals and every array length [n >= 1]. *)
Lemma binary64_index (n : nat) (a : Z) (b : positive) :
  (a, Zpos b) = (5, 10)%Z \/ (a, Zpos b) = (95, 100)%Z \/
  (a, Zpos b) = (99, 100)%Z ->
  (1 <= n)%nat -> (Z.of_nat n < 2 ^ 32)%Z ->
  Binary64.floor_mul (Z.of_nat n) (Binary64.literal a (Zpos b)) =
  Some (Z.of_nat (clamped_floor_index n (a # b))).
Proof.
  intros Hab Hn Hlt.
  rewrite (floor_mul_exact a (Zpos b) (Z.of_nat n) Hab) by lia.
  f_equal.
  assert (Hrange : (0 <= a * Z.of_nat n / Zpos b <= Z.of_nat n - 1)%Z).
  { destruct Hab as [H | [H | H]]; injection H as -> ->;
      Z.to_euclidean_division_equations; lia. }
  rewrite (clamped_floor_index_in_range _ _ _ Hrange). unfold floor_index. lia.
Qed.

(** ** C1 *)

(** C1. On every non-empty sample collection [calculateStats] returns a
    result whose [p50Ms], [p95Ms] and [p99Ms] are the 2-decimal roundings
    of the entries of the ascending-sorted collection at the index
    [floor(n * q)] clamped to [[0, n-1]], for [q] = 0.5, 0.95 and 0.99;
    each is one of the samples (nothing is interpolated).  For a
    collection that fits a JavaScript array (fewer than 2^32 samples) the
    binary64 evaluation of [Math.floor(n * q)] is that same index.  When
    the samples are the values 1..100 in any order, the three fields are
    51, 96 and 100. *)
Theorem percentiles_are_clamped_floor_ranks
    (m : samples) (op : string) (it : nat) (tt : Z) (sc ec : nat) :
  m <> [] ->
  exists (sorted : list Q) (r : BenchmarkResult) (v50 v95 v99 : Q),
    calculateStats m op it tt sc ec = Returned r /\
    Permutation sorted m /\ StronglySorted Qle sorted /\
    percentile_rule sorted q50 = Some v50 /\ p50Ms r = round2 (JS.Fin v50) /\
    percentile_rule sorted q95 = Some v95 /\ p95Ms r = round2 (JS.Fin v95) /\
    percentile_rule sorted q99 = Some v99 /\ p99Ms r = round2 (JS.Fin v99) /\
    In v50 m /\ In v95 m /\ In v99 m /\
    ((Z.of_nat (List.length m) < 2 ^ 32)%Z ->
       let n := List.length m in
       Binary64.floor_mul (Z.of_nat n) (Binary64.literal 5 10) =
         Some (Z.of_nat (clamped_floor_index n q50)) /\
       Binary64.floor_mul (Z.of_nat n) (Binary64.literal 95 100) =
         Some (Z.of_nat (clamped_floor_index n q95)) /\
       Binary64.floor_mul (Z.of_nat n) (Binary64.literal 99 100) =
         Some (Z.of_nat (clamped_floor_index n q99))) /\
    (Permutation m one_to_hundred ->
       JS.same_value (p50Ms r) (JS.Fin 51) /\
       JS.same_value (p95Ms r) (JS.Fin 96) /\
       JS.same_value (p99Ms r) (JS.Fin 100)).
Proof.
  intros Hne.
  destruct (calculateStats_shape op it tt sc ec Hne)
    as (s & r & vmin & v50 & v95 & v99 & vmax & Hperm & Hsorted & Hret &
        Emin & E50 & E95 & E99 & Emax & Fmin & F50 & F95 & F99 & Fmax & _).
  assert (Hlen : (1 <= List.length s)%nat).
  { rewrite (Permutation_length Hperm). destruct m; [congruence | simpl; lia]. }
  destruct (floor_index_bounds Hlen) as (H1 & H2 & H3).
  exists s, r, v50, v95, v99.
  repeat (split; [first [assumption
                        | unfold q50, q95, q99;
                          rewrite percentile_rule_floor by lia; assumption
                        | apply (Permutation_in _ Hperm);
                          eapply nth_error_In; eassumption] |]).
  split.
  { intros Hfit. cbv zeta. rewrite (Permutation_length Hperm) in Hlen.
    unfold q50, q95, q99. repeat split; apply binary64_index; auto. }
  intros H100.
  assert (Hs : s = one_to_hundred).
  { apply sorted_permutation_unique;
      [exact Hsorted | apply one_to_hundred_increasing |].
    rewrite Hperm. exact H100. }
  subst s.
  vm_compute in E50, E95, E99.
  injection E50 as <-. injection E95 as <-. injection E99 as <-.
  rewrite F50, F95, F99. vm_compute. repeat split; reflexivity.
Qed.

Lemma percentiles_are_clamped_floor_ranks_witness :
  exists r : BenchmarkResult,
    calculateStats (rev one_to_hundred) "hundred" 100 5050 100 0 = Returned r /\
    (JS.same_value (p50Ms r) (JS.Fin 51) /\
     JS.same_value (p95Ms r) (JS.Fin 96) /\
     JS.same_value (p99Ms r) (JS.Fin 100)) /\
    Binary64.floor_mul 100 (Binary64.literal 5 10) = Some 50%Z /\
    Binary64.floor_mul 100 (Binary64.literal 95 100) = Some 95%Z /\
    Binary64.floor_mul 100 (Binary64.literal 99 100) = Some 99%Z.
Proof.
  destruct (@percentiles_are_clamped_floor_ranks
              (rev one_to_hundred) "hundred" 100 5050 100%nat 0%nat)
    as (s & r & v50 & v95 & v99 & Hret & _ & _ & _ & _ & _ & _ & _ & _ &
        _ & _ & _ & Hbin & Hex).
  - discriminate.
  - exists r. split; [exact Hret |]. split.
    + apply Hex. apply Permutation_sym, Permutation_rev.
    + apply Hbin. vm_compute. reflexivity.
Defined.

(** ** C2 *)

(** C2. On every non-empty sample collection the result of
    [calculateStats] satisfies
    [minTimeMs <= p50Ms <= p95Ms <= p99Ms <= maxTimeMs], the comparisons
    being those of the rounded fields. *)
Theorem order_statistics_are_ordered
    (m : samples) (op : string) (it : nat) (tt : Z) (sc ec : nat) :
  m <> [] ->
  exists r : BenchmarkResult,
    calculateStats m op it tt sc ec = Returned r /\
    JS.le (minTimeMs r) (p50Ms r) = true /\
    JS.le (p50Ms r) (p95Ms r) = true /\
    JS.le (p95Ms r) (p99Ms r) = true /\
    JS.le (p99Ms r) (maxTimeMs r) = true.
Proof.
  intros Hne.
  destruct (calculateStats_shape op it tt sc ec Hne)
    as (s & r & vmin & v50 & v95 & v99 & vmax & Hperm & Hsorted & Hret &
        Emin & E50 & E95 & E99 & Emax & Fmin & F50 & F95 & F99 & Fmax & _).
  assert (Hlen : (1 <= List.length s)%nat).
  { rewrite (Permutation_length Hperm). destruct m; [congruence | simpl; lia]. }
  destruct (floor_index_bounds Hlen) as (H1 & H2 & H3).
  exists r. split; [exact Hret |].
  rewrite Fmin, F50, F95, F99, Fmax.
  repeat split; apply round2_monotone.
  - apply (sorted_nth_error_le Hsorted (Nat.le_0_l _) Emin E50).
  - apply (sorted_nth_error_le Hsorted H1 E50 E95).
  - apply (sorted_nth_error_le Hsorted H2 E95 E99).
  - apply (sorted_nth_error_le Hsorted H3 E99 Emax).
Qed.

Lemma order_statistics_are_ordered_witness :
  exists r : BenchmarkResult,
    calculateStats [3.127; 0.4; 12; 0.4; 7.55]%Q "op" 5 24 4 1 = Returned r /\
    JS.le (minTimeMs r) (p50Ms r) = true /\
    JS.le (p50Ms r) (p95Ms r) = true /\
    JS.le (p95Ms r) (p99Ms r) = true /\
    JS.le (p99Ms r) (maxTimeMs r) = true.
Proof.
  apply order_statistics_are_ordered. discriminate.
Defined.

(** ** C5 *)

Lemma sum_Fin (l : list Q) (acc : Q) :
  fold_left JS.add (map JS.Fin l) (JS.Fin acc) = JS.Fin (fold_left Qplus l acc).
Proof.
  revert acc. induction l as [| x l IH]; intros acc; simpl; [reflexivity |].
  apply IH.
Qed.

Lemma average_is_finite (m : samples) :
  m <> [] ->
  JS.is_finite
    (round2 (JS.div (JS.sum (map JS.Fin m))
                    (JS.of_nat (List.length (map JS.Fin m))))) = true.
Proof.
  intros Hne. unfold JS.sum. rewrite sum_Fin, length_map.
  unfold JS.of_nat, JS.of_Z, JS.div.
  assert (Hz : Qeq_bool (inject_Z (Z.of_nat (List.length m))) 0 = false).
  { destruct (Qeq_bool (inject_Z (Z.of_nat (List.length m))) 0) eqn:E;
      [| reflexivity].
    apply Qeq_bool_iff in E. unfold Qeq, inject_Z in E; simpl in E.
    destruct m; [congruence | simpl in E; lia]. }
  rewrite Hz. reflexivity.
Qed.

Lemma inject_Z_nonzero (z : Z) : z <> 0%Z -> Qeq_bool (inject_Z z) 0 = false.
Proof.
  intros Hz. destruct (Qeq_bool (inject_Z z) 0) eqn:E; [| reflexivity].
  apply Qeq_bool_iff in E. unfold Qeq, inject_Z in E; simpl in E. lia.
Qed.

Lemma calculateStats_returns
    (m : samples) (op : string) (it : nat) (tt : Z) (sc ec : nat) :
  m <> [] ->
   exists r : BenchmarkResult,
     calculateStats m op it tt sc ec = Returned r /\
     operation r = op /\ iterations r = it /\ totalTimeMs r = tt /\
     success r = sc /\ errors r = ec /\
     JS.is_finite (avgTimeMs r) = true /\
     JS.is_finite (minTimeMs r) = true /\
     JS.is_finite (maxTimeMs r) = true /\
     JS.is_finite (p50Ms r) = true /\
     JS.is_finite (p95Ms r) = true /\
     JS.is_finite (p99Ms r) = true /\
     ((1 <= it)%nat -> JS.is_finite (errorRate r) = true) /\
     (tt <> 0%Z -> JS.is_finite (opsPerSecond r) = true).
Proof.
  intros Hne.
  destruct (calculateStats_shape op it tt sc ec Hne)
    as (s & r & vmin & v50 & v95 & v99 & vmax & Hperm & Hsorted & Hret &
        Emin & E50 & E95 & E99 & Emax & Fmin & F50 & F95 & F99 & Fmax &
        Hit & Hsc & Hec).
  exists r. split; [exact Hret |].
  rewrite Fmin, F50, F95, F99, Fmax.
  pose proof (average_is_finite Hne) as Havg.
  unfold calculateStats in Hret.
  destruct (List.length m =? 0)%nat; [discriminate |].
  injection Hret as <-.
  cbn [operation iterations totalTimeMs success errors avgTimeMs errorRate
       opsPerSecond].
  do 5 (split; [reflexivity |]). split; [exact Havg |].
  do 5 (split; [reflexivity |]). split.
  - intros Hit'. rewrite (@inject_Z_nonzero (Z.of_nat it)) by lia. reflexivity.
  - intros Htt. rewrite (inject_Z_nonzero Htt). reflexivity.
Qed.

Lemma calculateStats_throws_iff
    (m : samples) (op : string) (it : nat) (tt : Z) (sc ec : nat) :
  (exists msg, calculateStats m op it tt sc ec = Thrown msg) <-> m = [].
Proof.
  split.
  - intros (msg & Hthrown). destruct m as [| x m]; [reflexivity |].
    destruct (@calculateStats_returns (x :: m) op it tt sc ec)
      as (r & Hret & _); [discriminate |]. congruence.
  - intros ->. eexists. reflexivity.
Qed.

(** C5. [calculateStats] throws exactly when the sample collection is
    empty.  On a non-empty collection it returns a result, whatever the
    success and error counts are (all trials may have failed): the result
    carries the counts it was given, its average, minimum, maximum and
    percentiles are finite numbers, and so are its error rate when
    [iterations >= 1] and its throughput when [totalTimeMs] is not zero. *)
Theorem throws_iff_no_measurements
    (m : samples) (op : string) (it : nat) (tt : Z) (sc ec : nat) :
  (calculateStats m op it tt sc ec = Thrown "No measurements recorded"
     <-> m = []) /\
  ((exists msg, calculateStats m op it tt sc ec = Thrown msg) <-> m = []) /\
  (m <> [] ->
   exists r : BenchmarkResult,
     calculateStats m op it tt sc ec = Returned r /\
     operation r = op /\ iterations r = it /\ totalTimeMs r = tt /\
     success r = sc /\ errors r = ec /\
     JS.is_finite (avgTimeMs r) = true /\
     JS.is_finite (minTimeMs r) = true /\
     JS.is_finite (maxTimeMs r) = true /\
     JS.is_finite (p50Ms r) = true /\
     JS.is_finite (p95Ms r) = true /\
     JS.is_finite (p99Ms r) = true /\
     ((1 <= it)%nat -> JS.is_finite (errorRate r) = true) /\
     (tt <> 0%Z -> JS.is_finite (opsPerSecond r) = true)).
Proof.
  split; [| split].
  - split.
    + intros Hthrown. apply (calculateStats_throws_iff m op it tt sc ec).
      eexists. exact Hthrown.
    + intros ->. reflexivity.
  - apply calculateStats_throws_iff.
  - apply calculateStats_returns.
Qed.

Lemma throws_iff_no_measurements_witness :
  exists r : BenchmarkResult,
    calculateStats [250; 31.5; 800]%Q "all trials failed" 3 1082 0 3
      = Returned r /\
    success r = 0%nat /\ errors r = 3%nat /\
    JS.is_finite (p95Ms r) = true.
Proof.
  destruct (@throws_iff_no_measurements [250; 31.5; 800]%Q
              "all trials failed" 3%nat 1082 0%nat 3%nat)
    as (_ & _ & Hfull).
  destruct Hfull as (r & Hret & _ & _ & _ & Hsc & Hec & _ & _ & _ & _ & H95 & _).
  - discriminate.
  - exists r. repeat split; assumption.
Defined.

(** ** C3 *)

Lemma trials_invariant (testFn : nat -> invocation) (k i : nat)
    (st : loop_state) :
  recorded (trials testFn k i st) =
    recorded st ++ map (fun j => elapsed (testFn (S j))) (seq i k) /\
  (successCount (trials testFn k i st) + errorCount (trials testFn k i st)
   = successCount st + errorCount st + k)%nat /\
  errorCount (trials testFn k i st) =
    (errorCount st +
     List.length (filter (fun j => rejected (testFn (S j))) (seq i k)))%nat.
Proof.
  revert i st. induction k as [| k IH]; intros i st; simpl.
  - rewrite app_nil_r. repeat split; lia.
  - destruct (IH (S i) (trial testFn i st)) as (Hrec & Hcount & Herr).
    rewrite Hrec, Hcount, Herr. unfold trial.
    destruct (rejected (testFn (S i))); simpl;
      rewrite <- app_assoc; simpl; repeat split; lia.
Qed.

(** The run of the harness, written out: the samples are the measured
    times of the calls 1 .. [it] and the error count is the number of
    those calls that rejected. *)
Lemma benchmark_run (self : benchmarker) (op : string)
    (testFn : nat -> invocation) (it : nat) (tt : Z) :
  let recorded := map (fun j => elapsed (testFn (S j))) (seq 0 it) in
  let failed :=
    List.length (filter (fun j => rejected (testFn (S j))) (seq 0 it)) in
  (failed <= it)%nat /\
  benchmark self op testFn it tt =
    ({| measurements := recorded |},
     calculateStats recorded op it tt (it - failed) failed).
Proof.
  cbv zeta. unfold benchmark. cbn [measurements].
  set (st0 := {| recorded := []; successCount := 0; errorCount := 0 |}).
  destruct (trials_invariant testFn it 0 st0) as (Hrec & Hcount & Herr).
  simpl in Hrec, Hcount, Herr. rewrite Hrec, Herr.
  split; [lia |]. do 3 f_equal. lia.
Qed.

(** C3. For every run of the harness with [iterations] trials, the
    sample collection handed to [calculateStats] has exactly [iterations]
    elements, one per trial in order: the time measured for that trial,
    whether it failed or not.  A result is returned exactly when there is
    at least one trial, and in it [success + errors = iterations], with
    [errors] the number of trials that rejected. *)
Theorem one_sample_and_one_count_per_trial
    (self : benchmarker) (op : string) (testFn : nat -> invocation)
    (it : nat) (tt : Z) :
  let run := benchmark self op testFn it tt in
  measurements (fst run) = map (fun j => elapsed (testFn (S j))) (seq 0 it) /\
  List.length (measurements (fst run)) = it /\
  match snd run with
  | Returned r =>
      (success r + errors r)%nat = iterations r /\ iterations r = it /\
      errors r =
        List.length (filter (fun j => rejected (testFn (S j))) (seq 0 it)) /\
      (1 <= it)%nat
  | Thrown _ => it = 0%nat
  end.
Proof.
  cbv zeta.
  destruct (benchmark_run self op testFn it tt) as (Hfailed & ->).
  cbn [fst snd measurements].
  set (recorded := map (fun j => elapsed (testFn (S j))) (seq 0 it)) in *.
  set (failed :=
         List.length (filter (fun j => rejected (testFn (S j))) (seq 0 it))) in *.
  assert (Hlen : List.length recorded = it)
    by (unfold recorded; rewrite length_map, length_seq; reflexivity).
  split; [reflexivity |]. split; [exact Hlen |].
  destruct (calculateStats recorded op it tt (it - failed) failed)
    as [r | msg] eqn:E.
  - destruct recorded as [| x l] eqn:El; [discriminate E |].
    destruct (@calculateStats_returns (x :: l) op it tt (it - failed) failed)
      as (r' & Hr' & _ & Hit & _ & Hsc & Hec & _); [discriminate |].
    rewrite E in Hr'. injection Hr' as <-. rewrite Hsc, Hec, Hit.
    simpl in Hlen. repeat split; lia.
  - assert (He : recorded = [])
      by (apply (calculateStats_throws_iff recorded op it tt (it - failed) failed);
          eauto).
    rewrite He in Hlen. simpl in Hlen. lia.
Qed.

(** ** C4 *)

Lemma slice_length (A : Type) (arr : list A) (i k : nat) :
  List.length (JS.slice arr i (i + k)) = Nat.min k (List.length arr - i).
Proof.
  unfold JS.slice. rewrite length_firstn, length_skipn. f_equal. lia.
Qed.

(** With a positive group size and enough fuel the loop ends; the groups
    it appends are the consecutive slices of width [k] from index [i]
    on. *)
Lemma make_batches_spec (endpoints : list string) (k : nat) :
  (1 <= k)%nat ->
  forall (fuel i : nat) (acc : list (list string)),
    (List.length endpoints - i <= fuel)%nat ->
    exists bs : list (list string),
      make_batches fuel endpoints k i acc = Some (acc ++ bs) /\
      List.concat bs = skipn i endpoints /\
      (List.length endpoints - i <= List.length bs * k)%nat /\
      (List.length bs * k < List.length endpoints - i + k)%nat /\
      (forall j b, nth_error bs j = Some b ->
         b = JS.slice endpoints (i + j * k) (i + j * k + k) /\
         (i + j * k < List.length endpoints)%nat).
Proof.
  intros Hk. induction fuel as [| fuel IH]; intros i acc Hfuel.
  - exists []. simpl.
    assert (Hi : (i <? List.length endpoints)%nat = false)
      by (apply Nat.ltb_ge; lia).
    rewrite Hi, app_nil_r.
    split; [reflexivity |]. split; [symmetry; apply skipn_all2; lia |].
    split; [lia |]. split; [lia |].
    intros [| j] b Hb; discriminate.
  - simpl. destruct (i <? List.length endpoints)%nat eqn:Hi.
    + apply Nat.ltb_lt in Hi.
      destruct (IH (i + k)%nat (acc ++ [JS.slice endpoints i (i + k)]))
        as (bs & Hrun & Hcat & Hlo & Hhi & Hnth); [lia |].
      exists (JS.slice endpoints i (i + k) :: bs).
      rewrite Hrun, <- app_assoc. simpl.
      split; [reflexivity |]. split.
      { rewrite Hcat. unfold JS.slice.
        replace (i + k - i)%nat with k by lia.
        rewrite <- (firstn_skipn k (skipn i endpoints)) at 2.
        rewrite skipn_skipn. f_equal. f_equal. lia. }
      split; [lia |]. split; [destruct (List.length bs); simpl in *; nia |].
      intros [| j] b Hb; simpl in Hb.
      * injection Hb as <-. split; [f_equal; lia | lia].
      * destruct (Hnth j b Hb) as (-> & Hj). split; [f_equal; lia | lia].
    + apply Nat.ltb_ge in Hi. exists []. rewrite app_nil_r. simpl.
      split; [reflexivity |]. split; [symmetry; apply skipn_all2; lia |].
      split; [lia |]. split; [lia |].
      intros [| j] b Hb; discriminate.
Qed.

(** With a group size of zero the loop never advances. *)
Lemma make_batches_zero_diverges (endpoints : list string) (fuel i : nat)
    (acc : list (list string)) :
  (i < List.length endpoints)%nat ->
  make_batches fuel endpoints 0 i acc = None.
Proof.
  intros Hi. revert acc. induction fuel as [| fuel IH]; intros acc; simpl.
  - apply Nat.ltb_lt in Hi. rewrite Hi. reflexivity.
  - pose proof Hi as Hi'. apply Nat.ltb_lt in Hi'. rewrite Hi'.
    rewrite Nat.add_0_r. apply IH.
Qed.

(** One call of the batch callable dispatches every group, in order, and
    never rejects, whatever the endpoints answer. *)
Lemma run_batches_all (get : string -> response) (batches : list (list string)) :
  run_batches get batches = (Returned tt, batches).
Proof.
  induction batches as [| b rest IH]; simpl; [reflexivity |].
  rewrite IH. reflexivity.
Qed.

Lemma batch_testFn_call (client : nat -> string -> response) (clock : nat -> Q)
    (batches : list (list string)) (call : nat) :
  requests (batch_testFn client clock batches call) = batches /\
  rejected (batch_testFn client clock batches call) = false /\
  elapsed (batch_testFn client clock batches call) = clock call.
Proof.
  unfold batch_testFn. rewrite run_batches_all. repeat split.
Qed.

Lemma filter_none (A : Type) (f : A -> bool) (l : list A) :
  (forall x, f x = false) -> filter f l = [].
Proof.
  intros Hf. induction l as [| x l IH]; simpl; [reflexivity |].
  rewrite Hf. exact IH.
Qed.

(** With 12 endpoints and groups of 5, the first trial already dispatches
    the three groups, not the first one alone. *)
Lemma one_group_per_trial_fails :
  ~ one_group_per_trial (fun _ _ => Resolved) (fun _ => 1) twelve_endpoints 5.
Proof.
  intros H. specialize (H _ eq_refl 0%nat).
  assert (Hlt : (0 < Nat.min 10 3)%nat) by (simpl; lia).
  specialize (H Hlt). vm_compute in H. discriminate H.
Qed.

(** C4, amended.  For a positive group size [k] the batch benchmark cuts
    the endpoint list into consecutive groups: group [j] is the slice
    [[j*k, j*k + k)], every group but the last has [k] endpoints and the
    last between 1 and [k], and the groups put end to end are the list.
    Every call of the timed operation (the warm-up and each trial)
    dispatches all the groups in order, each group awaited as a whole,
    and never rejects, so no trial is counted as an error.  The number of
    trials is [min(10, number of groups)]; 12 endpoints in groups of 5
    make 3 groups and 3 trials. *)
Theorem batch_trial_runs_every_group
    (fuel : nat) (self : benchmarker)
    (client : nat -> string -> response) (clock : nat -> Q)
    (endpoints : list string) (k : nat) (tt : Z) :
  (1 <= k)%nat -> (List.length endpoints <= fuel)%nat ->
  exists bs : list (list string),
    make_batches fuel endpoints k 0 [] = Some bs /\
    List.concat bs = endpoints /\
    (List.length endpoints <= List.length bs * k)%nat /\
    (List.length bs * k < List.length endpoints + k)%nat /\
    (forall j b, nth_error bs j = Some b ->
       b = JS.slice endpoints (j * k) (j * k + k) /\
       (1 <= List.length b <= k)%nat /\
       (S j < List.length bs -> List.length b = k)%nat) /\
    benchmarkBatchOperations fuel self client clock endpoints k tt =
      Some (benchmark self (batch_label k) (batch_testFn client clock bs)
              (Nat.min 10 (List.length bs)) tt) /\
    (forall call,
       requests (batch_testFn client clock bs call) = bs /\
       rejected (batch_testFn client clock bs call) = false) /\
    match snd (benchmark self (batch_label k) (batch_testFn client clock bs)
                 (Nat.min 10 (List.length bs)) tt) with
    | Returned r =>
        iterations r = Nat.min 10 (List.length bs) /\
        errors r = 0%nat /\ success r = iterations r
    | Thrown _ => endpoints = []
    end /\
    (List.length endpoints = 12%nat -> k = 5%nat ->
     List.length bs = 3%nat /\ Nat.min 10 (List.length bs) = 3%nat).
Proof.
  intros Hk Hfuel.
  destruct (@make_batches_spec endpoints k Hk fuel 0%nat [])
    as (bs & Hrun & Hcat & Hlo & Hhi & Hnth); [lia |].
  simpl in Hrun, Hcat. rewrite Nat.sub_0_r in Hlo, Hhi.
  exists bs. split; [exact Hrun |]. split; [exact Hcat |].
  split; [exact Hlo |]. split; [exact Hhi |]. split.
  { intros j b Hb. destruct (Hnth j b Hb) as (Hslice & Hj). simpl in Hslice, Hj.
    split; [exact Hslice |].
    assert (Hlen : List.length b = Nat.min k (List.length endpoints - j * k))
      by (rewrite Hslice; apply slice_length).
    split; [lia |]. intros Hnext.
    destruct (nth_error bs (S j)) as [b' |] eqn:E.
    - destruct (Hnth (S j) b' E) as (_ & Hj'). simpl in Hj'. lia.
    - apply nth_error_None in E. lia. }
  split; [unfold benchmarkBatchOperations; rewrite Hrun; reflexivity |].
  split.
  { intros call.
    destruct (batch_testFn_call client clock bs call) as (H1 & H2 & _).
    split; assumption. }
  split.
  - destruct (benchmark_run self (batch_label k) (batch_testFn client clock bs)
                (Nat.min 10 (List.length bs)) tt) as (_ & ->).
    cbn [snd]. rewrite filter_none
      by (intros x; apply (batch_testFn_call client clock bs (S x))).
    cbn [List.length]. rewrite Nat.sub_0_r.
    set (recorded := map _ _).
    assert (Hlen : List.length recorded = Nat.min 10 (List.length bs))
      by (unfold recorded; rewrite length_map, length_seq; reflexivity).
    destruct (calculateStats recorded (batch_label k) (Nat.min 10 (List.length bs)) tt
                (Nat.min 10 (List.length bs)) 0) as [r | msg] eqn:E.
    + destruct recorded as [| x l] eqn:El; [discriminate E |].
      destruct (@calculateStats_returns (x :: l) (batch_label k)
                  (Nat.min 10 (List.length bs)) tt
                  (Nat.min 10 (List.length bs)) 0%nat)
        as (r' & Hr' & _ & Hit & _ & Hsc & Hec & _); [discriminate |].
      rewrite E in Hr'. injection Hr' as <-. repeat split; congruence.
    + assert (He : recorded = [])
        by (apply (calculateStats_throws_iff recorded (batch_label k)
                     (Nat.min 10 (List.length bs)) tt
                     (Nat.min 10 (List.length bs)) 0%nat); eauto).
      rewrite He in Hlen. simpl in Hlen.
      destruct bs as [| b bs]; [| simpl in Hlen; lia].
      simpl in Hcat. symmetry. exact Hcat.
  - intros H12 H5. subst k. rewrite H12 in Hlo, Hhi. lia.
Qed.

Lemma batch_trial_runs_every_group_witness :
  exists bs : list (list string),
    make_batches 12 twelve_endpoints 5 0 [] = Some bs /\
    List.length bs = 3%nat /\ Nat.min 10 (List.length bs) = 3%nat /\
    requests (batch_testFn (fun _ _ => Failed) (fun _ => 1) bs 1) = bs.
Proof.
  destruct (@batch_trial_runs_every_group 12 {| measurements := [] |}
              (fun _ _ => Failed) (fun _ => 1) twelve_endpoints 5%nat 1200)
    as (bs & Hrun & _ & _ & _ & _ & _ & Hcall & _ & Hex).
  - lia.
  - simpl. lia.
  - exists bs. destruct (Hex eq_refl eq_refl) as (H3 & Hmin).
    repeat split; try assumption. apply Hcall.
Defined.

(** ** C6 and C7 *)

Lemma Promise_all_returned (A B : Type) (f : A -> outcome B) (g : A -> B)
    (l : list A) :
  (forall x, f x = Returned (g x)) ->
  Promise_all (map f l) = Returned (map g l).
Proof.
  intros Hf. induction l as [| x l IH]; simpl; [reflexivity |].
  rewrite Hf, IH. reflexivity.
Qed.

Lemma measureFacilitatorLatency_returns (net : network) (url : string) :
  measureFacilitatorLatency net url =
  Returned (latency_of (fetch_get net (url ++ "/supported"))).
Proof.
  unfold measureFacilitatorLatency.
  destruct (fetch_get net (url ++ "/supported")); reflexivity.
Qed.

Lemma measureRpcLatency_returns (net : network) (url : string) :
  measureRpcLatency net url = Returned (latency_of (fetch_post net url)).
Proof.
  unfold measureRpcLatency. destruct (fetch_post net url); reflexivity.
Qed.

Lemma valid_latencies (probes : list (option Q)) :
  filter (fun l => JS.gt l (JS.Fin 0)) (map latency_of probes) =
  map JS.Fin (positive_successes probes).
Proof.
  unfold positive_successes.
  induction probes as [| [t |] probes IH]; simpl; [reflexivity | |].
  - destruct (JS.Qlt_bool 0 t); simpl; rewrite IH; reflexivity.
  - exact IH.
Qed.

(** [analyzeNetwork] always returns, and this is what it returns. *)
Lemma analyzeNetwork_returns (net : network) :
  analyzeNetwork net =
  Returned {|
    facilitatorLatency :=
      average_or_sentinel (map JS.Fin (positive_successes (facilitator_probes net)));
    rpcLatency :=
      average_or_sentinel (map JS.Fin (positive_successes (rpc_probes net)));
    totalRoundTrips := 6;
    dataTransferred := 0
  |}.
Proof.
  unfold analyzeNetwork.
  rewrite (Promise_all_returned _ _ facilitators
             (measureFacilitatorLatency_returns net)).
  rewrite (Promise_all_returned _ _ rpcEndpoints
             (measureRpcLatency_returns net)).
  cbn [bind].
  rewrite <- (map_map (fun url => fetch_get net (url ++ "/supported")) latency_of).
  rewrite <- (map_map (fetch_post net) latency_of).
  fold (facilitator_probes net). fold (rpc_probes net).
  rewrite !valid_latencies. reflexivity.
Qed.

Lemma average_or_sentinel_finite (ts : list Q) :
  JS.is_finite (average_or_sentinel (map JS.Fin ts)) = true.
Proof.
  unfold average_or_sentinel. rewrite length_map.
  destruct ts as [| t ts]; [reflexivity |].
  cbn [List.length Nat.ltb Nat.leb].
  unfold JS.sum. rewrite sum_Fin. unfold JS.of_nat, JS.of_Z, JS.div.
  assert (Hz : Qeq_bool (inject_Z (Z.of_nat (S (List.length ts)))) 0 = false).
  { destruct (Qeq_bool (inject_Z (Z.of_nat (S (List.length ts)))) 0) eqn:E;
      [| reflexivity].
    apply Qeq_bool_iff in E. unfold Qeq, inject_Z in E; simpl in E. lia. }
  rewrite Hz. reflexivity.
Qed.

Lemma no_success_no_positive (probes : list (option Q)) :
  Forall (fun p => p = None) probes -> positive_successes probes = [].
Proof.
  unfold positive_successes. induction 1 as [| p probes Hp _ IH]; simpl.
  - reflexivity.
  - subst p. exact IH.
Qed.

(** C6. [analyzeNetwork] never throws: for every behaviour of the network
    it returns metrics, with [totalRoundTrips] equal to the number of
    configured endpoints (3 facilitators and 3 RPC endpoints, failures
    included) and both latencies finite numbers (never [NaN]).  When all
    probes of a class fail, the latency of that class is the sentinel -1,
    which is not zero. *)
Theorem analyzeNetwork_never_throws (net : network) :
  exists m : NetworkMetrics,
    analyzeNetwork net = Returned m /\
    totalRoundTrips m = (List.length facilitators + List.length rpcEndpoints)%nat /\
    totalRoundTrips m = 6%nat /\
    JS.is_finite (facilitatorLatency m) = true /\
    JS.is_finite (rpcLatency m) = true /\
    (Forall (fun p => p = None) (facilitator_probes net) ->
       facilitatorLatency m = JS.Fin (-1)) /\
    (Forall (fun p => p = None) (rpc_probes net) ->
       rpcLatency m = JS.Fin (-1)) /\
    ~ JS.same_value (JS.Fin (-1)) (JS.Fin 0).
Proof.
  eexists. split; [apply analyzeNetwork_returns |].
  cbn [totalRoundTrips facilitatorLatency rpcLatency].
  split; [reflexivity |]. split; [reflexivity |].
  split; [apply average_or_sentinel_finite |].
  split; [apply average_or_sentinel_finite |].
  split; [| split].
  - intros H. rewrite (no_success_no_positive H). reflexivity.
  - intros H. rewrite (no_success_no_positive H). reflexivity.
  - simpl. unfold Qeq. simpl. lia.
Qed.

Lemma analyzeNetwork_never_throws_witness :
  exists m : NetworkMetrics,
    analyzeNetwork unreachable = Returned m /\
    facilitatorLatency m = JS.Fin (-1) /\
    rpcLatency m = JS.Fin (-1) /\
    totalRoundTrips m = 6%nat.
Proof.
  destruct (analyzeNetwork_never_throws unreachable)
    as (m & Hret & _ & H6 & _ & _ & Hf & Hr & _).
  exists m. split; [exact Hret |].
  split; [apply Hf; repeat constructor |].
  split; [apply Hr; repeat constructor | exact H6].
Defined.

(** There the code reports (10 + 20) / 2 = 15, not (0 + 10 + 20) / 3 = 10. *)
Lemma zero_latency_is_dropped : ~ averages_every_success instant_facilitator.
Proof.
  intros H. destruct (H _ (analyzeNetwork_returns instant_facilitator)) as [Hf _].
  vm_compute in Hf. discriminate Hf.
Qed.

Lemma positive_successes_spec (probes : list (option Q)) (t : Q) :
  In t (positive_successes probes) <-> In (Some t) probes /\ 0 < t.
Proof.
  unfold positive_successes. rewrite filter_In.
  assert (Hs : In t (successes probes) <-> In (Some t) probes).
  { unfold successes. rewrite in_flat_map. split.
    - intros ([u |] & Hin & Ht); simpl in Ht; [| contradiction].
      destruct Ht as [-> | []]. exact Hin.
    - intros Hin. exists (Some t). split; [exact Hin | left; reflexivity]. }
  rewrite Hs. unfold JS.Qlt_bool.
  assert (Hb : negb (Qle_bool t 0) = true <-> 0 < t).
  { rewrite negb_true_iff. split.
    - intros E. destruct (Qlt_le_dec 0 t) as [Hlt | Hle]; [exact Hlt |].
      apply Qle_bool_iff in Hle. congruence.
    - intros Hlt. destruct (Qle_bool t 0) eqn:E; [| reflexivity].
      apply Qle_bool_iff in E. lra. }
  rewrite Hb. reflexivity.
Qed.

(** C7, amended.  The latency [analyzeNetwork] reports for a class is the
    average over exactly the probes of that class that succeeded with a
    measured time above zero (the sentinel when there is none): failed
    probes are left out, and so is a probe that measured zero. *)
Theorem averages_positive_latencies (net : network) :
  exists m : NetworkMetrics,
    analyzeNetwork net = Returned m /\
    facilitatorLatency m =
      average_or_sentinel
        (map JS.Fin (positive_successes (facilitator_probes net))) /\
    rpcLatency m =
      average_or_sentinel (map JS.Fin (positive_successes (rpc_probes net))) /\
    (forall t, In t (positive_successes (facilitator_probes net)) <->
               In (Some t) (facilitator_probes net) /\ 0 < t) /\
    (forall t, In t (positive_successes (rpc_probes net)) <->
               In (Some t) (rpc_probes net) /\ 0 < t).
Proof.
  eexists. split; [apply analyzeNetwork_returns |].
  cbn [facilitatorLatency rpcLatency].
  split; [reflexivity |]. split; [reflexivity |].
  split; intros t; apply positive_successes_spec.
Qed.

(** ** C8, C9 and C10 *)

Lemma same_value_Fin (a : JS.number) (q : Q) :
  JS.same_value a (JS.Fin q) -> exists x, a = JS.Fin x /\ x == q.
Proof.
  destruct a as [| | | x]; simpl; try contradiction.
  intros H. exists x. split; [reflexivity | exact H].
Qed.

Lemma le_not_gt (a b : JS.number) : JS.le a b = true -> JS.gt a b = false.
Proof.
  destruct a as [| | | x], b as [| | | y]; simpl; try congruence.
  unfold JS.Qlt_bool. intros H. apply Qle_bool_iff in H.
  apply Qle_bool_iff in H. rewrite H. reflexivity.
Qed.

(** The mean and the maximum over a single result. *)
Lemma avgLatency_single (r : BenchmarkResult) (x : Q) :
  avgTimeMs r = JS.Fin x -> avgLatency [r] = JS.Fin ((0 + x) / inject_Z 1).
Proof. intros H. unfold avgLatency. simpl. rewrite H. reflexivity. Qed.

Lemma maxOps_single (r : BenchmarkResult) (x : Q) :
  opsPerSecond r = JS.Fin x -> maxOps [r] = JS.Fin x.
Proof. intros H. unfold maxOps, JS.Math_max. simpl. rewrite H. reflexivity. Qed.

(** The rules are evaluated in the order of the table, each appending its
    own block. *)
Lemma recommendations_in_table_order (results : list BenchmarkResult)
    (nm : NetworkMetrics) :
  recommendations results nm =
  flat_map block (filter (fires results nm) rule_table).
Proof.
  unfold recommendations, rule_table. cbn [filter fires].
  destruct (JS.gt (avgLatency results) (JS.Fin 500));
    destruct (JS.gt (facilitatorLatency nm) (JS.Fin 200));
    destruct (existsb (fun r => JS.gt (errorRate r) (JS.Fin 5)) results);
    destruct (JS.lt (maxOps results) (JS.Fin 10)); reflexivity.
Qed.

(** Which rules fire on a single result with finite fields. *)
Lemma fires_single (r : BenchmarkResult) (nm : NetworkMetrics)
    (avg err ops fac : Q) :
  avgTimeMs r = JS.Fin avg -> errorRate r = JS.Fin err ->
  opsPerSecond r = JS.Fin ops -> facilitatorLatency nm = JS.Fin fac ->
  fires [r] nm HighAverageLatency = JS.Qlt_bool 500 avg /\
  fires [r] nm HighFacilitatorLatency = JS.Qlt_bool 200 fac /\
  fires [r] nm ElevatedErrorRate = JS.Qlt_bool 5 err /\
  fires [r] nm LowThroughput = JS.Qlt_bool ops 10.
Proof.
  intros Havg Herr Hops Hfac. cbn [fires existsb].
  rewrite (avgLatency_single r Havg), (maxOps_single r Hops), Herr, Hfac.
  unfold JS.lt. cbn [JS.gt]. rewrite orb_false_r.
  repeat split. unfold JS.Qlt_bool. f_equal. apply Qleb_comp; [| reflexivity].
  unfold inject_Z. field.
Qed.

Lemma Qlt_bool_true (x y : Q) : x < y -> JS.Qlt_bool x y = true.
Proof.
  intros H. unfold JS.Qlt_bool. destruct (Qle_bool y x) eqn:E; [| reflexivity].
  apply Qle_bool_iff in E. lra.
Qed.

Lemma Qlt_bool_false (x y : Q) : y <= x -> JS.Qlt_bool x y = false.
Proof.
  intros H. unfold JS.Qlt_bool. apply Qle_bool_iff in H. rewrite H. reflexivity.
Qed.

(** C8. On a single result with [avgTimeMs = 600], [errorRate = 0] and
    [opsPerSecond = 50], and network metrics with
    [facilitatorLatency = 50], exactly one rule fires, the
    high-average-latency one, and the recommendations are its block (one
    warning line and its three hints).  On every input the
    recommendations are the blocks of the rules that fire, in the order
    of the table. *)
Theorem only_high_latency_fires :
  (forall (results : list BenchmarkResult) (nm : NetworkMetrics),
     recommendations results nm =
       flat_map block (filter (fires results nm) rule_table)) /\
  (forall (r : BenchmarkResult) (nm : NetworkMetrics),
     JS.same_value (avgTimeMs r) (JS.Fin 600) ->
     JS.same_value (errorRate r) (JS.Fin 0) ->
     JS.same_value (opsPerSecond r) (JS.Fin 50) ->
     JS.same_value (facilitatorLatency nm) (JS.Fin 50) ->
     filter (fires [r] nm) rule_table = [HighAverageLatency] /\
     recommendations [r] nm = high_latency_block /\
     displayOptimizations [r] nm =
       banner ++
       [(yellow, "⚠️  High average latency detected. Consider:"%string);
        (gray, "  • Using a closer RPC endpoint"%string);
        (gray, "  • Implementing request caching"%string);
        (gray, "  • Using connection pooling"%string)]).
Proof.
  split; [exact recommendations_in_table_order |].
  intros r nm Havg Herr Hops Hfac.
  apply same_value_Fin in Havg, Herr, Hops, Hfac.
  destruct Havg as (avg & Eavg & Vavg), Herr as (err & Eerr & Verr),
           Hops as (ops & Eops & Vops), Hfac as (fac & Efac & Vfac).
  destruct (fires_single r nm Eavg Eerr Eops Efac) as (F1 & F2 & F3 & F4).
  rewrite Qlt_bool_true in F1 by lra.
  rewrite Qlt_bool_false in F2 by lra.
  rewrite Qlt_bool_false in F3 by lra.
  rewrite Qlt_bool_false in F4 by lra.
  assert (Hfilter : filter (fires [r] nm) rule_table = [HighAverageLatency])
    by (unfold rule_table; cbn [filter]; rewrite F1, F2, F3, F4; reflexivity).
  assert (Hrecs : recommendations [r] nm = high_latency_block)
    by (rewrite recommendations_in_table_order, Hfilter; reflexivity).
  split; [exact Hfilter |]. split; [exact Hrecs |].
  unfold displayOptimizations. rewrite Hrecs. reflexivity.
Qed.

Lemma only_high_latency_fires_witness :
  recommendations [result_with 600 0 50] (metrics_with (JS.Fin 50)) =
  high_latency_block.
Proof.
  apply (proj2 only_high_latency_fires (result_with 600 0 50)
           (metrics_with (JS.Fin 50))); simpl; reflexivity.
Defined.

Lemma no_rule_no_recommendation (results : list BenchmarkResult)
    (nm : NetworkMetrics) :
  (forall r, fires results nm r = false) -> recommendations results nm = [].
Proof.
  intros H. rewrite recommendations_in_table_order. unfold rule_table.
  cbn [filter]. rewrite !H. reflexivity.
Qed.

(** C9. When no rule fires, what is written after the banner is the one
    positive message and nothing else; this is the case for a result with
    [avgTimeMs = 50], [errorRate = 0], [opsPerSecond = 100] and a
    facilitator latency of 50.  On every input something is written after
    the banner. *)
Theorem all_good_when_no_rule_fires :
  (forall (results : list BenchmarkResult) (nm : NetworkMetrics),
     (forall r, fires results nm r = false) ->
     displayOptimizations results nm = banner ++ [all_good]) /\
  (forall (r : BenchmarkResult) (nm : NetworkMetrics),
     JS.same_value (avgTimeMs r) (JS.Fin 50) ->
     JS.same_value (errorRate r) (JS.Fin 0) ->
     JS.same_value (opsPerSecond r) (JS.Fin 100) ->
     JS.same_value (facilitatorLatency nm) (JS.Fin 50) ->
     displayOptimizations [r] nm = banner ++ [all_good]) /\
  (forall (results : list BenchmarkResult) (nm : NetworkMetrics),
     exists written, written <> [] /\
       displayOptimizations results nm = banner ++ written).
Proof.
  assert (Hnone : forall results nm,
            (forall r, fires results nm r = false) ->
            displayOptimizations results nm = banner ++ [all_good]).
  { intros results nm H. unfold displayOptimizations.
    rewrite (no_rule_no_recommendation results nm H). reflexivity. }
  split; [exact Hnone |]. split.
  - intros r nm Havg Herr Hops Hfac. apply Hnone.
    apply same_value_Fin in Havg, Herr, Hops, Hfac.
    destruct Havg as (avg & Eavg & Vavg), Herr as (err & Eerr & Verr),
             Hops as (ops & Eops & Vops), Hfac as (fac & Efac & Vfac).
    destruct (fires_single r nm Eavg Eerr Eops Efac) as (F1 & F2 & F3 & F4).
    rewrite Qlt_bool_false in F1 by lra.
    rewrite Qlt_bool_false in F2 by lra.
    rewrite Qlt_bool_false in F3 by lra.
    rewrite Qlt_bool_false in F4 by lra.
    intros [| | |]; assumption.
  - intros results nm. unfold displayOptimizations.
    destruct (recommendations results nm) as [| rec recs].
    + exists [all_good]. split; [discriminate | reflexivity].
    + eexists. split; [| reflexivity]. discriminate.
Qed.

Lemma all_good_when_no_rule_fires_witness :
  displayOptimizations [result_with 50 0 100] (metrics_with (JS.Fin 50)) =
  banner ++ [all_good].
Proof.
  apply (proj1 (proj2 all_good_when_no_rule_fires) (result_with 50 0 100)
           (metrics_with (JS.Fin 50))); simpl; reflexivity.
Defined.

(** C10. With no result at all and a facilitator latency of at most 200,
    the mean of the averages is [NaN], so the high-latency rule does not
    fire; the maximum throughput is [-Infinity], which is below 10, so the
    low-throughput rule fires.  The recommendations are the low-throughput
    block, and the positive message is not written. *)
Theorem empty_results_report_low_throughput (nm : NetworkMetrics) :
  JS.le (facilitatorLatency nm) (JS.Fin 200) = true ->
  avgLatency [] = JS.NaN /\
  fires [] nm HighAverageLatency = false /\
  maxOps [] = JS.NegInf /\
  fires [] nm LowThroughput = true /\
  recommendations [] nm = low_throughput_block /\
  displayOptimizations [] nm =
    banner ++ map print_recommendation low_throughput_block /\
  ~ In all_good (displayOptimizations [] nm).
Proof.
  intros Hfac. apply le_not_gt in Hfac.
  assert (Hrecs : recommendations [] nm = low_throughput_block).
  { unfold recommendations. rewrite Hfac. reflexivity. }
  assert (Hout : displayOptimizations [] nm =
                 banner ++ map print_recommendation low_throughput_block).
  { unfold displayOptimizations. rewrite Hrecs. reflexivity. }
  repeat (split; [first [reflexivity | assumption] |]).
  rewrite Hout. vm_compute. intros H.
  repeat (destruct H as [H | H]; [discriminate H |]). exact H.
Qed.

Lemma empty_results_report_low_throughput_witness :
  recommendations [] (metrics_with (JS.Fin 50)) = low_throughput_block.
Proof.
  apply (empty_results_report_low_throughput (metrics_with (JS.Fin 50))).
  reflexivity.
Defined.
